(** * The Autoscaler trait controller of kubevela

    A shallow embedding of [pkg/controller/v1alpha1/autoscaler/types.go]:
    the constants of the package, the [Reconcile] method of
    [AutoscalerReconciler] and the objects it reads and writes.

    The cluster is reached through the embedded [client.Client] and the
    helpers of the OAM runtime; their answers are the fields of the
    [AutoscalerReconciler] record, and what [Reconcile] does to the cluster is an explicit list of
    effects, in program order.  A nil-pointer dereference is an outcome of
    its own. *)

From Stdlib Require Import List String Ascii ZArith Bool Arith Lia.
Import ListNotations.
Open Scope string_scope.
Open Scope list_scope.

(** ** Objects *)

Module Meta.

(** [metav1.OwnerReference]; [Controller] and [BlockOwnerDeletion] are
    [*bool], [None] is the nil pointer. *)
Record OwnerReference := mkOwnerReference {
  APIVersion : string;
  Kind : string;
  Name : string;
  UID : string;
  Controller : option bool;
  BlockOwnerDeletion : option bool
}.

Definition BoolPtr (b : bool) : option bool := Some b.

Definition setController (r : OwnerReference) (c : option bool) : OwnerReference :=
  mkOwnerReference (APIVersion r) (Kind r) (Name r) (UID r) c (BlockOwnerDeletion r).

(** The part of an [unstructured.Unstructured] that [Reconcile] reads and
    writes. *)
Record Unstructured := mkUnstructured {
  GetAPIVersion : string;
  GetKind : string;
  GetName : string;
  GetOwnerReferences : list OwnerReference
}.

Definition SetOwnerReferences (res : Unstructured) (refs : list OwnerReference)
  : Unstructured :=
  mkUnstructured (GetAPIVersion res) (GetKind res) (GetName res) refs.

Record NamespacedName := mkNamespacedName {
  Namespace : string;
  ReqName : string
}.

End Meta.
Import Meta.

(** [v1alpha1.TargetWorkload] and the part of [v1alpha1.Autoscaler] the
    controller touches. *)
Record TargetWorkload := mkTargetWorkload {
  twAPIVersion : string;
  twKind : string;
  twName : string
}.

Definition noTargetWorkload : TargetWorkload := mkTargetWorkload "" "" "".

(** Errors: [apierrors.IsNotFound] tells a not-found answer of the store
    from every other error. *)
Inductive error :=
| ErrNotFound (msg : string)
| ErrOther (msg : string).

Definition errorMsg (e : error) : string :=
  match e with ErrNotFound m => m | ErrOther m => m end.

(** [errors.Wrap(err, msg)] *)
Definition Wrap (e : error) (msg : string) : error :=
  ErrOther (msg ++ ": " ++ errorMsg e)%string.

(** [client.IgnoreNotFound] *)
Definition IgnoreNotFound (e : error) : option error :=
  match e with
  | ErrNotFound _ => None
  | ErrOther _ => Some e
  end.

(** [cpv1alpha1.ReconcileError(err)]: the condition patched onto the trait. *)
Inductive Condition :=
| ReconcileError (e : error).

(** ** Constants of the package *)

Definition CPUType := "cpu".
Definition MemoryType := "memory".
Definition StorageType := "storage".
Definition EphemeralStorageType := "ephemeral-storage".
Definition CronType := "cron".
Definition CPUUtilization := "Utilization".

Definition SpecWarningTargetWorkloadNotSet := "Spec.targetWorkload is not set".
Definition SpecWarningStartAtTimeFormat :=
  "startAt is not in the right format, which should be like `12:01`".
Definition SpecWarningStartAtTimeRequired :=
  "spec.triggers.condition.startAt: Required value".
Definition SpecWarningDurationTimeRequired :=
  "spec.triggers.condition.duration: Required value".
Definition SpecWarningReplicasRequired :=
  "spec.triggers.condition.replicas: Required value".
Definition SpecWarningDurationTimeNotInRightFormat :=
  "spec.triggers.condition.duration: not in the right format".
Definition SpecWarningSumOfStartAndDurationMoreThan24Hour :=
  "the sum of the start hour and the duration hour has to be less than 24 hours.".

Definition scaledObjectKind := "ScaledObject".
Definition scaledObjectAPIVersion := "keda.k8s.io/v1alpha1".

(** [time.Duration] is a count of nanoseconds. *)
Definition Second : Z := 1000000000.

(** [reconcile.Result] *)
Record Result := mkResult {
  Requeue : bool;
  RequeueAfter : Z
}.

Definition emptyResult : Result := mkResult false 0.

(** [ReconcileWaitResult] is the time to wait between reconciliation. *)
Definition ReconcileWaitResult : Result := mkResult false (30 * Second).

(** Modelled from the spec: [util.ReconcileWaitResult] of the OAM runtime,
    returned on the failure paths of [Reconcile]; the package is not part of
    the sources at hand and the spec gives it as the fixed 30 second
    requeue. *)
Definition utilReconcileWaitResult : Result := mkResult false (30 * Second).

(** ** The trait *)

(** Modelled from the spec: the trigger schema [spec.triggers[]] (type,
    metricTargetType?, threshold?, startAt?, duration?, replicas?); the API
    types of [api/v1alpha1] are not part of the sources at hand. *)
Record Trigger := mkTrigger {
  trType : string;
  trMetricTargetType : option string;
  trThreshold : option nat;
  trStartAt : option string;
  trDuration : option string;
  trReplicas : option nat
}.

Record Autoscaler := mkAutoscaler {
  scAPIVersion : string;
  scKind : string;
  scName : string;
  scUID : string;
  scTargetWorkload : TargetWorkload;
  scTriggers : list Trigger;
  scConditions : list Condition
}.

Definition setTargetWorkload (sc : Autoscaler) (tw : TargetWorkload) : Autoscaler :=
  mkAutoscaler (scAPIVersion sc) (scKind sc) (scName sc) (scUID sc) tw
               (scTriggers sc) (scConditions sc).

(** ** The reconciler and its collaborators *)

(** A Go pair [(value, err)]. *)
Inductive answer (A : Type) :=
| Ok (a : A)
| Err (e : error).
Arguments Ok {A} a.
Arguments Err {A} e.

(** What [Reconcile] calls: the embedded [client.Client] ([Get], [Patch]),
    the helpers and messages of the OAM runtime ([util], [oamutil],
    [common]) and the method [scaleByKEDA], whose body is in another file of
    the package.  [Patch] is given the number of the call within one
    reconcile, so that the store may answer each call differently. *)
Record AutoscalerReconciler := mkReconciler {
  Get : NamespacedName -> answer Autoscaler;
  Patch : nat -> Unstructured -> option error;
  LocateParentAppConfig : Autoscaler -> answer (option string);
  FetchWorkload : Autoscaler -> answer Unstructured;
  FetchWorkloadChildResources : Unstructured -> answer (list Unstructured);
  PatchCondition : Autoscaler -> Condition -> option error;
  scaleByKEDA : Autoscaler -> string -> option error;
  ErrLocateAppConfig : string;
  ErrFetchChildResources : string;
  ErrLocatingWorkload : string
}.

(** The object an event is recorded on. *)
Inductive EventObject :=
| OnTrait (sc : Autoscaler)
| OnParent (appConfig : string).

(** The calls of [Reconcile] that reach the cluster, with their answers. *)
Inductive Effect :=
| DoPatch (res : Unstructured) (answered : option error)
| DoPatchCondition (sc : Autoscaler) (c : Condition) (answered : option error)
| DoEvent (obj : EventObject) (reason : string) (e : error)
| DoScaleByKEDA (sc : Autoscaler) (namespace : string) (answered : option error).

Definition Trace := list Effect.

(** How a call of [Reconcile] ends: a return [(ctrl.Result, error)] or a
    run-time panic, after the effects made so far. *)
Inductive Outcome :=
| Returned (res : Result) (err : option error) (tr : Trace)
| Panicked (tr : Trace).

Definition traceOf (o : Outcome) : Trace :=
  match o with Returned _ _ tr => tr | Panicked tr => tr end.

Definition after (e : Effect) (o : Outcome) : Outcome :=
  match o with
  | Returned res err tr => Returned res err (e :: tr)
  | Panicked tr => Panicked (e :: tr)
  end.

(** ** Ownership adoption *)

(** The inner loop of [Reconcile]:
    [for i, r := range refs { if *r.Controller { refs[i].Controller = pointer.BoolPtr(false) } }].
    [None] is the panic of dereferencing a nil [Controller]. *)
Fixpoint demote (refs : list OwnerReference) : option (list OwnerReference) :=
  match refs with
  | [] => Some []
  | r :: rest =>
      match Controller r with
      | None => None
      | Some c =>
          match demote rest with
          | None => None
          | Some rest' =>
              Some ((if c then setController r (BoolPtr false) else r) :: rest')
          end
      end
  end.

Definition traitOwnerReference (scaler : Autoscaler) : OwnerReference :=
  mkOwnerReference (scAPIVersion scaler) (scKind scaler) (scName scaler)
                   (scUID scaler) (BoolPtr true) (BoolPtr true).

Definition isScalableKind (kind : string) : bool :=
  (kind =? "Deployment") || (kind =? "StatefulSet").

Definition targetOf (res : Unstructured) : TargetWorkload :=
  mkTargetWorkload (GetAPIVersion res) (GetKind res) (GetName res).

(** How the loop over [resources] ends: it ran to its end, with the trait
    and [targetWorkloadSetFlag] as they then are, or [Reconcile] is over. *)
Inductive LoopExit :=
| LoopDone (scaler : Autoscaler) (targetWorkloadSetFlag : bool) (tr : Trace)
| LoopLeft (o : Outcome).

Definition afterLoop (e : Effect) (x : LoopExit) : LoopExit :=
  match x with
  | LoopDone sc flag tr => LoopDone sc flag (e :: tr)
  | LoopLeft o => LoopLeft (after e o)
  end.

(** [for _, res := range resources { ... }]; [i] counts the iterations. *)
Fixpoint adoptLoop (r : AutoscalerReconciler) (ownerReference : OwnerReference)
    (i : nat) (resources : list Unstructured)
    (scaler : Autoscaler) (targetWorkloadSetFlag : bool) : LoopExit :=
  match resources with
  | [] => LoopDone scaler targetWorkloadSetFlag []
  | res :: rest =>
      match demote (GetOwnerReferences res) with
      | None => LoopLeft (Panicked [])
      | Some refs =>
          let refs := refs ++ [ownerReference] in
          let res := SetOwnerReferences res refs in
          match Patch r i res with
          | Some err =>
              let cond := ReconcileError
                (Wrap err "Failed to set ownerReference for child resource") in
              let perr := PatchCondition r scaler cond in
              LoopLeft (Returned utilReconcileWaitResult perr
                          [DoPatch res (Some err); DoPatchCondition scaler cond perr])
          | None =>
              afterLoop (DoPatch res None)
                (if negb targetWorkloadSetFlag && isScalableKind (GetKind res)
                 then adoptLoop r ownerReference (S i) rest
                        (setTargetWorkload scaler (targetOf res)) true
                 else adoptLoop r ownerReference (S i) rest
                        scaler targetWorkloadSetFlag)
          end
      end
  end.

(** ** Reconcile *)

Definition Reconcile (r : AutoscalerReconciler) (req : NamespacedName) : Outcome :=
  match Get r req with
  | Err err => Returned ReconcileWaitResult (IgnoreNotFound err) []
  | Ok scaler =>
  match LocateParentAppConfig r scaler with
  | Err err =>
      let cond := ReconcileError (ErrOther (ErrLocateAppConfig r)) in
      let perr := PatchCondition r scaler cond in
      Returned utilReconcileWaitResult perr [DoPatchCondition scaler cond perr]
  | Ok parent =>
  let eventObj := match parent with
                  | None => OnTrait scaler
                  | Some appConfig => OnParent appConfig
                  end in
  match FetchWorkload r scaler with
  | Err err =>
      let cond := ReconcileError (Wrap err (ErrLocatingWorkload r)) in
      let perr := PatchCondition r scaler cond in
      Returned utilReconcileWaitResult perr
        [DoEvent (OnTrait scaler) (ErrLocatingWorkload r) err;
         DoPatchCondition scaler cond perr]
  | Ok workload =>
  let ownerReference := traitOwnerReference scaler in
  match FetchWorkloadChildResources r workload with
  | Err err =>
      let cond := ReconcileError (ErrOther (ErrFetchChildResources r)) in
      let perr := PatchCondition r scaler cond in
      Returned utilReconcileWaitResult perr
        [DoEvent eventObj (ErrFetchChildResources r) err;
         DoPatchCondition scaler cond perr]
  | Ok resources =>
  let resources := resources ++ [workload] in
  match adoptLoop r ownerReference 0 resources scaler false with
  | LoopLeft o => o
  | LoopDone scaler targetWorkloadSetFlag tr =>
  let scaler :=
    if (List.length resources =? 1)%nat && negb targetWorkloadSetFlag
    then setTargetWorkload scaler (targetOf workload)
    else scaler in
  let namespace := Namespace req in
  match scaleByKEDA r scaler namespace with
  | Some err =>
      Returned ReconcileWaitResult (Some err)
        (tr ++ [DoScaleByKEDA scaler namespace (Some err)])
  | None =>
      Returned emptyResult None (tr ++ [DoScaleByKEDA scaler namespace None])
  end end end end end end.

(** ** Reading a trace *)

(** A successful reconcile is the last [return ctrl.Result{}, nil]. *)
Definition succeeded (o : Outcome) : bool :=
  match o with
  | Returned (mkResult false 0%Z) None _ => true
  | _ => false
  end.

(** The objects the store holds after the accepted [Patch] calls, in the
    order of the calls. *)
Fixpoint patchedResources (tr : Trace) : list Unstructured :=
  match tr with
  | [] => []
  | DoPatch res None :: tr' => res :: patchedResources tr'
  | _ :: tr' => patchedResources tr'
  end.

(** The traits handed to [scaleByKEDA]. *)
Fixpoint scaledTraits (tr : Trace) : list (Autoscaler * string) :=
  match tr with
  | [] => []
  | DoScaleByKEDA sc ns _ :: tr' => (sc, ns) :: scaledTraits tr'
  | _ :: tr' => scaledTraits tr'
  end.

(** The Condition/Event Reporter was reached: a condition was patched or an
    event recorded. *)
Definition isReport (e : Effect) : bool :=
  match e with
  | DoPatchCondition _ _ _ | DoEvent _ _ _ => true
  | _ => false
  end.

Definition reported (tr : Trace) : bool := existsb isReport tr.

(** An owner reference as the demotion loop leaves it. *)
Definition isController (ref : OwnerReference) : bool :=
  match Controller ref with
  | Some true => true
  | _ => false
  end.

Definition demoted (ref : OwnerReference) : OwnerReference :=
  if isController ref then setController ref (BoolPtr false) else ref.

(** A resource as one iteration of the adoption loop sends it to [Patch]. *)
Definition adopted (ownerReference : OwnerReference) (res : Unstructured)
  : Unstructured :=
  SetOwnerReferences res (map demoted (GetOwnerReferences res) ++ [ownerReference]).

Definition controllersSet (res : Unstructured) : Prop :=
  Forall (fun ref => Controller ref <> None) (GetOwnerReferences res).


(** ** Trigger validation *)

Module Validator.

Definition digitOf (c : ascii) : option nat :=
  let n := nat_of_ascii c in
  if ((48 <=? n) && (n <=? 57))%nat then Some (n - 48) else None.

Fixpoint parseDigits (s : string) (acc : nat) : option nat :=
  match s with
  | EmptyString => Some acc
  | String c s' =>
      match digitOf c with
      | Some d => parseDigits s' (10 * acc + d)
      | None => None
      end
  end.

(** Modelled from the spec: [duration] parses as an hour count, a
    non-empty run of decimal digits; the parser of the package is not part
    of the sources at hand. *)
Definition parseHourCount (s : string) : option nat :=
  match s with
  | EmptyString => None
  | _ => parseDigits s 0
  end.

(** Modelled from the spec: [startAt] parses as [HH:MM], two digits of
    hours below 24, a colon, two digits of minutes below 60; the parser of
    the package is not part of the sources at hand. *)
Definition parseHHMM (s : string) : option (nat * nat) :=
  match s with
  | String h1 (String h2 (String ":" (String m1 (String m2 EmptyString)))) =>
      match digitOf h1, digitOf h2, digitOf m1, digitOf m2 with
      | Some a, Some b, Some c, Some d =>
          let h := 10 * a + b in
          let m := 10 * c + d in
          if ((h <? 24) && (m <? 60))%nat then Some (h, m) else None
      | _, _, _, _ => None
      end
  | _ => None
  end.

Definition startAtWarnings (t : Trigger) : list string :=
  match trStartAt t with
  | None => [SpecWarningStartAtTimeRequired]
  | Some s =>
      match parseHHMM s with
      | None => [SpecWarningStartAtTimeFormat]
      | Some _ => []
      end
  end.

Definition durationWarnings (t : Trigger) : list string :=
  match trDuration t with
  | None => [SpecWarningDurationTimeRequired]
  | Some d =>
      match parseHourCount d with
      | None => [SpecWarningDurationTimeNotInRightFormat]
      | Some _ => []
      end
  end.

Definition replicasWarnings (t : Trigger) : list string :=
  match trReplicas t with
  | None => [SpecWarningReplicasRequired]
  | Some _ => []
  end.

Definition sumWarnings (t : Trigger) : list string :=
  match trStartAt t, trDuration t with
  | Some s, Some d =>
      match parseHHMM s, parseHourCount d with
      | Some (startHour, _), Some durationHour =>
          if (24 <=? startHour + durationHour)%nat
          then [SpecWarningSumOfStartAndDurationMoreThan24Hour]
          else []
      | _, _ => []
      end
  | _, _ => []
  end.

(** Modelled from the spec: the cron checks of the Trigger Validator, in
    the order the spec gives them; the sum of the hours is checked once
    all three fields are there and parse.  The validator of the package is
    not part of the sources at hand, only the texts of its warnings are. *)
Definition validateCron (t : Trigger) : list string :=
  match startAtWarnings t ++ durationWarnings t ++ replicasWarnings t with
  | [] => sumWarnings t
  | ws => ws
  end.

Definition isCron (t : Trigger) : bool := trType t =? CronType.

(** Modelled from the spec: a resource-metric trigger needs a
    metric-target type and a threshold. *)
Definition validMetric (t : Trigger) : bool :=
  match trMetricTargetType t, trThreshold t with
  | Some _, Some _ => true
  | _, _ => false
  end.

Definition validTrigger (t : Trigger) : bool :=
  if isCron t
  then match validateCron t with [] => true | _ => false end
  else validMetric t.

(** Modelled from the spec: validation is per trigger; the triggers that
    pass are the ones delegated, and there is no failure. *)
Definition delegatedTriggers (ts : list Trigger) : list Trigger :=
  filter validTrigger ts.

(** Modelled from the spec: the backend scaling object, one per trait,
    named after the trait and scoped to its namespace, of the fixed kind
    and API version, with the target workload as scale target and one
    entry for each delegated trigger. *)
Record ScaledObject := mkScaledObject {
  soKind : string;
  soAPIVersion : string;
  soName : string;
  soNamespace : string;
  soScaleTarget : TargetWorkload;
  soTriggers : list Trigger
}.

Definition scaledObjectOf (scaler : Autoscaler) (namespace : string) : ScaledObject :=
  mkScaledObject scaledObjectKind scaledObjectAPIVersion (scName scaler) namespace
    (scTargetWorkload scaler) (delegatedTriggers (scTriggers scaler)).

(** Modelled from the spec: [scaleByKEDA], the Delegated Scale
    Synchronizer, whose body is not part of the sources at hand: it upserts
    the scaling object of the trait and fails only when the backend write
    [upsert] fails; the warnings of validation never make it fail. *)
Definition scaleByKEDAModel (upsert : ScaledObject -> option error)
    (scaler : Autoscaler) (namespace : string) : option error :=
  upsert (scaledObjectOf scaler namespace).

End Validator.

(** ** The adoption loop, step by step *)

(** The trait and the flag after the loop went over [rs]. *)
Definition resolveStep (st : Autoscaler * bool) (res : Unstructured)
  : Autoscaler * bool :=
  if negb (snd st) && isScalableKind (GetKind res)
  then (setTargetWorkload (fst st) (targetOf res), true)
  else st.

Definition resolveOver (rs : list Unstructured) (sc : Autoscaler) (flag : bool)
  : Autoscaler * bool :=
  fold_left resolveStep rs (sc, flag).

Definition patchEffects (o : OwnerReference) (rs : list Unstructured) : Trace :=
  map (fun res => DoPatch (adopted o res) None) rs.

Definition afterEffects (es : Trace) (x : LoopExit) : LoopExit :=
  fold_right afterLoop x es.

Definition patchesAccepted (r : AutoscalerReconciler) (o : OwnerReference)
    (i : nat) (rs : list Unstructured) : Prop :=
  forall k res, nth_error rs k = Some res -> Patch r (i + k) (adopted o res) = None.

(** The trait as [Reconcile] hands it to [scaleByKEDA]. *)
Definition traitToScale (scaler : Autoscaler) (children : list Unstructured)
    (workload : Unstructured) : Autoscaler :=
  let resources := children ++ [workload] in
  let st := resolveOver resources scaler false in
  if (List.length resources =? 1)%nat && negb (snd st)
  then setTargetWorkload (fst st) (targetOf workload)
  else fst st.

(** ** Ownership after a reconcile *)

Definition sameButController (old new : OwnerReference) : Prop :=
  APIVersion new = APIVersion old /\ Kind new = Kind old /\
  Name new = Name old /\ UID new = UID old /\
  BlockOwnerDeletion new = BlockOwnerDeletion old.

(** [new] is [old] adopted by the trait: the same object, one owner
    reference more, the only controller among them the trait, and every
    reference of [old] still at its place, a controller demoted. *)
Definition adoptedBy (scaler : Autoscaler) (old new : Unstructured) : Prop :=
  GetAPIVersion new = GetAPIVersion old /\
  GetKind new = GetKind old /\
  GetName new = GetName old /\
  filter isController (GetOwnerReferences new)
  = [mkOwnerReference (scAPIVersion scaler) (scKind scaler) (scName scaler)
       (scUID scaler) (Some true) (Some true)] /\
  List.length (GetOwnerReferences new) = S (List.length (GetOwnerReferences old)) /\
  forall k ref, nth_error (GetOwnerReferences old) k = Some ref ->
    exists ref', nth_error (GetOwnerReferences new) k = Some ref' /\
      sameButController ref ref' /\
      (Controller ref = Some true -> Controller ref' = Some false) /\
      (Controller ref = Some false -> ref' = ref).

(** ** Objects to run the controller on *)

Module Sample.

Definition req : NamespacedName := mkNamespacedName "default" "web-scaler".

Definition trait : Autoscaler :=
  mkAutoscaler "standard.oam.dev/v1alpha1" "Autoscaler" "web-scaler" "uid-trait"
    noTargetWorkload [] [].

Definition appConfigRef : OwnerReference :=
  mkOwnerReference "core.oam.dev/v1alpha2" "ApplicationConfiguration" "web-app"
    "uid-app" (Some true) (Some true).

Definition plainRef : OwnerReference :=
  mkOwnerReference "v1" "ConfigMap" "web-config" "uid-cm" None None.

Definition deployment : Unstructured :=
  mkUnstructured "apps/v1" "Deployment" "web" [appConfigRef].

Definition statefulSet : Unstructured :=
  mkUnstructured "apps/v1" "StatefulSet" "db" [].

Definition service : Unstructured :=
  mkUnstructured "v1" "Service" "web-svc" [].

Definition containerized : Unstructured :=
  mkUnstructured "core.oam.dev/v1alpha2" "ContainerizedWorkload" "web" [appConfigRef].

Definition loneDeployment : Unstructured :=
  mkUnstructured "apps/v1" "Deployment" "web" [].

Definition configured : Unstructured :=
  mkUnstructured "apps/v1" "Deployment" "web" [plainRef].

(** A cluster: what [Get] answers, the workload and its child resources,
    the answer to each [Patch] call and the answer of [scaleByKEDA]. *)
Definition cluster (got : answer Autoscaler) (workload : Unstructured)
    (children : list Unstructured) (patch : nat -> option error)
    (scale : option error) : AutoscalerReconciler :=
  mkReconciler (fun _ => got) (fun i _ => patch i) (fun _ => Ok None)
    (fun _ => Ok workload) (fun _ => Ok children)
    (fun _ _ => None) (fun _ _ => scale)
    "cannot locate the parent application configuration"
    "failed to fetch workload child resources"
    "failed to locate the workload".

Definition accepting : nat -> option error := fun _ => None.

Definition cpuTrigger : Trigger :=
  mkTrigger CPUType (Some CPUUtilization) (Some 80) None None None.

Definition lateCronTrigger : Trigger :=
  mkTrigger CronType None None (Some "12:01") (Some "13") (Some 5).

Definition morningCronTrigger : Trigger :=
  mkTrigger CronType None None (Some "09:00") (Some "2") (Some 5).

Definition triggered : Autoscaler :=
  mkAutoscaler "standard.oam.dev/v1alpha1" "Autoscaler" "web-scaler" "uid-trait"
    noTargetWorkload [cpuTrigger; lateCronTrigger; morningCronTrigger] [].

(** A cluster whose [scaleByKEDA] is the synchronizer of the spec, over a
    backend that accepts every write. *)
Definition synchronizing (got : Autoscaler) (workload : Unstructured)
    (children : list Unstructured) : AutoscalerReconciler :=
  mkReconciler (fun _ => Ok got) (fun _ _ => None) (fun _ => Ok None)
    (fun _ => Ok workload) (fun _ => Ok children)
    (fun _ _ => None) (Validator.scaleByKEDAModel (fun _ => None))
    "cannot locate the parent application configuration"
    "failed to fetch workload child resources"
    "failed to locate the workload".

Definition refusingAt (n : nat) : nat -> option error :=
  fun i => if (i =? n)%nat then Some (ErrOther "conflict") else None.

End Sample.

(** ** Setting the controller up *)

Module Bootstrap.

(** [restclient.Config], by the host it points to. *)
Record Config := mkConfig {
  Host : string
}.

(** The recorder [SetupWithManager] stores in the reconciler:
    [event.NewAPIRecorder(mgr.GetEventRecorderFor(name)).WithAnnotations(...)]. *)
Record Recorder := mkRecorder {
  recorderName : string;
  recorderAnnotations : list (string * string)
}.

(** How [flag.Parse] ends: the process exits (the command line does not
    parse), or it returns, with the value the command line gives for the
    flag, if any. *)
Inductive ParseOutcome :=
| ParseExits
| ParseReturns (given : option string).

(** What the set-up calls outside the manager: [homedir.HomeDir],
    [filepath.Join], [flag.Parse] (told the default of the [kubeConfig]
    flag when that flag is defined), [clientcmd.BuildConfigFromFlags] and
    [ctrl.NewControllerManagedBy(mgr).For(...).Complete(r)]. *)
Record Process := mkProcess {
  HomeDir : string;
  Join : list string -> string;
  Parse : option string -> ParseOutcome;
  BuildConfigFromFlags : string -> string -> answer Config;
  Complete : option error
}.

(** The manager, by the client and the scheme it hands out. *)
Record Manager := mkManager {
  GetClient : string;
  GetScheme : string
}.

(** The six fields of [AutoscalerReconciler]; [None] and [false] are the
    zero values. *)
Record Fields := mkFields {
  Client : option string;
  Log : option string;
  Scheme : option string;
  record : option Recorder;
  config : option Config;
  ctxSet : bool
}.

(** How a call ends: the process exits, a nil pointer is dereferenced,
    [flag.String] panics over a flag defined before, or the call returns. *)
Inductive Ended (A : Type) :=
| Exited
| NilPointer
| FlagRedefined (name : string)
| Returns (a : A).
Arguments Exited {A}.
Arguments NilPointer {A}.
Arguments FlagRedefined {A} name.
Arguments Returns {A} a.

(** [flag.String(name, value, usage)] over the flags the process has
    defined so far: the value the new flag points to and the flags defined
    after the call. *)
Definition flagString (flags : list string) (name value : string)
  : Ended (string * list string) :=
  if existsb (String.eqb name) flags then FlagRedefined name
  else Returns (value, name :: flags).

(** [buildConfig]: the error returned, the fields and the flags of the
    process as they then are. *)
Definition buildConfig (p : Process) (flags : list string) (r : Fields)
  : Ended (option error * Fields * list string) :=
  let home := HomeDir p in
  let defined : Ended (option string * list string) :=
    if negb (home =? "")
    then match flagString flags "kubeConfig" (Join p [home; ".kube"; "config"]) with
         | Returns (value, flags) => Returns (Some value, flags)
         | Exited => Exited
         | NilPointer => NilPointer
         | FlagRedefined name => FlagRedefined name
         end
    else Returns (None, flags) in
  match defined with
  | Exited => Exited
  | NilPointer => NilPointer
  | FlagRedefined name => FlagRedefined name
  | Returns (kubeConfig, flags) =>
      match Parse p kubeConfig with
      | ParseExits => Exited
      | ParseReturns given =>
          match kubeConfig with
          | None => NilPointer
          | Some byDefault =>
              let path := match given with Some v => v | None => byDefault end in
              match BuildConfigFromFlags p "" path with
              | Err err => Returns (Some err, r, flags)
              | Ok c =>
                  Returns (None,
                           mkFields (Client r) (Log r) (Scheme r) (record r)
                             (Some c) (ctxSet r),
                           flags)
              end
          end
      end
  end.

(** [SetupWithManager]: the error returned, the fields, whether the
    controller was handed to the manager ([Complete] was called), and the
    flags of the process. *)
Definition SetupWithManager (p : Process) (mgr : Manager) (flags : list string)
    (r : Fields) : Ended (option error * Fields * bool * list string) :=
  match buildConfig p flags r with
  | Exited => Exited
  | NilPointer => NilPointer
  | FlagRedefined name => FlagRedefined name
  | Returns (Some err, r, flags) => Returns (Some err, r, false, flags)
  | Returns (None, r, flags) =>
      let r := mkFields (Client r) (Log r) (Scheme r) (record r) (config r) true in
      let r := mkFields (Client r) (Log r) (Scheme r)
                 (Some (mkRecorder "Autoscaler" [("controller", "Autoscaler")]))
                 (config r) (ctxSet r) in
      Returns (Complete p, r, true, flags)
  end.

(** [Setup] adds the controller to the manager. *)
Definition Setup (p : Process) (mgr : Manager) (flags : list string)
  : Ended (option error * Fields * bool * list string) :=
  let r := mkFields (Some (GetClient mgr)) (Some "Autoscaler")
             (Some (GetScheme mgr)) None None false in
  SetupWithManager p mgr flags r.

End Bootstrap.

(** ** The contexts of the end-to-end tests *)

Module E2E.

(** [strings.Contains], which [gomega.ContainSubstring] applies. *)
Fixpoint Contains (s substr : string) : bool :=
  prefix substr s ||
  match s with
  | EmptyString => false
  | String _ s' => Contains s' substr
  end.

(** [Exec(cli)]: the output of the command and its error. *)
Definition Executor := string -> string * option error.

Definition NotToHaveOccurred (err : option error) : bool :=
  match err with None => true | Some _ => false end.

(** The body of the [It] of [RefreshContext]: [true] when every
    expectation holds. *)
Definition RefreshContext (Exec : Executor) : bool :=
  let (output, err) := Exec "vela system update" in
  NotToHaveOccurred err &&
  Contains output "syncing workload definitions from cluster..." &&
  Contains output "sync" &&
  Contains output "successfully" &&
  Contains output "remove".

(** The body of the [It] of [ComponentListContext]. *)
Definition ComponentListContext (Exec : Executor)
    (applicationName traitAlias : string) : bool :=
  let (output, err) := Exec "vela comp ls" in
  NotToHaveOccurred err &&
  Contains output "NAME" &&
  Contains output applicationName &&
  (if negb (traitAlias =? "") then Contains output traitAlias else true).

End E2E.

(** * Properties *)

(** ** The demotion loop *)

Lemma isController_demoted (ref : OwnerReference) : isController (demoted ref) = false.
Proof.
  unfold demoted. destruct (isController ref) eqn:E; [reflexivity | exact E].
Qed.

Lemma demoted_fields (ref : OwnerReference) :
  APIVersion (demoted ref) = APIVersion ref /\ Kind (demoted ref) = Kind ref /\
  Name (demoted ref) = Name ref /\ UID (demoted ref) = UID ref /\
  BlockOwnerDeletion (demoted ref) = BlockOwnerDeletion ref.
Proof. unfold demoted. destruct (isController ref); repeat split. Qed.

Lemma demoted_controller (ref : OwnerReference) :
  (Controller ref = Some true -> Controller (demoted ref) = Some false) /\
  (Controller ref <> Some true -> demoted ref = ref).
Proof.
  unfold demoted, isController.
  destruct (Controller ref) as [[|]|] eqn:E; split; intros H;
    try reflexivity; try discriminate; try congruence.
Qed.

Lemma demote_total (refs : list OwnerReference) :
  Forall (fun ref => Controller ref <> None) refs ->
  demote refs = Some (map demoted refs).
Proof.
  induction 1 as [|ref refs Href _ IH]; simpl; [reflexivity|].
  unfold demoted, isController.
  destruct (Controller ref) as [c|]; [|congruence].
  rewrite IH. destruct c; reflexivity.
Qed.

Lemma demote_inv (refs refs' : list OwnerReference) :
  demote refs = Some refs' ->
  Forall (fun ref => Controller ref <> None) refs /\ refs' = map demoted refs.
Proof.
  revert refs'. induction refs as [|ref refs IH]; simpl; intros refs' H.
  - inversion H. split; constructor.
  - destruct (Controller ref) as [c|] eqn:Ec; [|discriminate].
    destruct (demote refs) as [rest|]; [|discriminate].
    destruct (IH rest eq_refl) as [Hall ->]. inversion H; subst; clear H.
    split.
    + constructor; [congruence | assumption].
    + unfold demoted, isController. rewrite Ec. destruct c; reflexivity.
Qed.

Lemma demote_panics (refs : list OwnerReference) :
  Exists (fun ref => Controller ref = None) refs -> demote refs = None.
Proof.
  intros H. destruct (demote refs) as [refs'|] eqn:E; [|reflexivity].
  apply demote_inv in E. destruct E as [Hall _].
  apply Exists_exists in H. destruct H as [ref [Hin Hnil]].
  rewrite Forall_forall in Hall. elim (Hall ref Hin Hnil).
Qed.

Lemma filter_isController_demoted (refs : list OwnerReference) :
  filter isController (map demoted refs) = [].
Proof.
  induction refs as [|ref refs IH]; simpl; [reflexivity|].
  rewrite isController_demoted. exact IH.
Qed.

Lemma controllers_of_adopted (o : OwnerReference) (res : Unstructured) :
  isController o = true ->
  filter isController (GetOwnerReferences (adopted o res)) = [o].
Proof.
  intros Ho. unfold adopted. simpl. rewrite filter_app, filter_isController_demoted.
  simpl. rewrite Ho. reflexivity.
Qed.


(** ** The adoption loop *)

Lemma patchesAccepted_cons r o i res rs :
  patchesAccepted r o i (res :: rs) ->
  Patch r i (adopted o res) = None /\ patchesAccepted r o (S i) rs.
Proof.
  intros H. split.
  - specialize (H 0 res eq_refl). rewrite Nat.add_0_r in H. exact H.
  - intros k x Hk. specialize (H (S k) x Hk).
    rewrite Nat.add_succ_r in H. exact H.
Qed.

Lemma resolveOver_set rs sc : resolveOver rs sc true = (sc, true).
Proof.
  unfold resolveOver. induction rs as [|res rs IH]; simpl; [reflexivity|].
  exact IH.
Qed.

Lemma resolveOver_none rs sc :
  Forall (fun res => isScalableKind (GetKind res) = false) rs ->
  resolveOver rs sc false = (sc, false).
Proof.
  unfold resolveOver. induction 1 as [|res rs Hres _ IH]; simpl; [reflexivity|].
  unfold resolveStep at 2. simpl. rewrite Hres. exact IH.
Qed.

Lemma resolveOver_first before res rest sc :
  Forall (fun x => isScalableKind (GetKind x) = false) before ->
  isScalableKind (GetKind res) = true ->
  resolveOver (before ++ res :: rest) sc false
  = (setTargetWorkload sc (targetOf res), true).
Proof.
  intros Hb Hres. unfold resolveOver. rewrite fold_left_app.
  fold (resolveOver before sc false). rewrite (resolveOver_none _ _ Hb).
  simpl. unfold resolveStep at 2. simpl. rewrite Hres.
  apply resolveOver_set.
Qed.

(** The loop over a prefix whose patches are all accepted is their trace,
    followed by the loop over the rest. *)
Lemma adoptLoop_app r o before :
  forall i rest sc flag,
  Forall controllersSet before ->
  patchesAccepted r o i before ->
  adoptLoop r o i (before ++ rest) sc flag
  = afterEffects (patchEffects o before)
      (adoptLoop r o (i + List.length before) rest
         (fst (resolveOver before sc flag)) (snd (resolveOver before sc flag))).
Proof.
  induction before as [|res before IH]; intros i rest sc flag Hset Hacc.
  - simpl. rewrite Nat.add_0_r. reflexivity.
  - inversion Hset as [|? ? Hres Hbefore]; subst.
    apply patchesAccepted_cons in Hacc. destruct Hacc as [Hp Hacc].
    simpl adoptLoop. rewrite (demote_total _ Hres).
    fold (adopted o res). rewrite Hp.
    simpl. rewrite Nat.add_succ_r. unfold resolveOver. simpl.
    unfold resolveStep at 2 4. simpl.
    destruct (negb flag && isScalableKind (GetKind res)); simpl;
      rewrite (IH (S i) rest _ _ Hbefore Hacc); reflexivity.
Qed.

Lemma adoptLoop_accepted r o rs i sc flag :
  Forall controllersSet rs ->
  patchesAccepted r o i rs ->
  adoptLoop r o i rs sc flag
  = LoopDone (fst (resolveOver rs sc flag)) (snd (resolveOver rs sc flag))
             (patchEffects o rs).
Proof.
  intros Hset Hacc.
  rewrite <- (app_nil_r rs) at 1.
  rewrite (adoptLoop_app r o rs i [] sc flag Hset Hacc). simpl.
  generalize (fst (resolveOver rs sc flag)) (snd (resolveOver rs sc flag)).
  intros sc' flag'. unfold afterEffects.
  induction (patchEffects o rs) as [|e es IH]; simpl; [reflexivity|].
  rewrite IH. reflexivity.
Qed.

(** A loop that ran to its end accepted every patch, met no nil
    [Controller], and made exactly the patches of [patchEffects]. *)
Lemma adoptLoop_done r o rs :
  forall i sc flag sc' flag' tr,
  adoptLoop r o i rs sc flag = LoopDone sc' flag' tr ->
  Forall controllersSet rs /\ patchesAccepted r o i rs /\
  tr = patchEffects o rs /\ (sc', flag') = resolveOver rs sc flag.
Proof.
  induction rs as [|res rs IH]; intros i sc flag sc' flag' tr H.
  - simpl in H. inversion H; subst. repeat split; try constructor.
    intros k x Hk. destruct k; discriminate.
  - simpl in H.
    destruct (demote (GetOwnerReferences res)) as [refs|] eqn:Ed; [|discriminate].
    apply demote_inv in Ed. destruct Ed as [Hres ->].
    fold (adopted o res) in H.
    destruct (Patch r i (adopted o res)) as [err|] eqn:Ep; [discriminate|].
    simpl in H. unfold resolveOver. simpl. unfold resolveStep at 2. simpl.
    destruct (negb flag && isScalableKind (GetKind res));
      match type of H with
      | afterLoop _ (adoptLoop _ _ _ _ ?s ?f) = _ =>
          destruct (adoptLoop r o (S i) rs s f) as [sc2 flag2 tr2|] eqn:El;
            [|discriminate];
          destruct (IH _ _ _ _ _ _ El) as (Hset & Hacc & -> & Hr)
      end;
      simpl in H; inversion H; subst; clear H;
      (repeat split;
       [ constructor; assumption
       | intros [|k] x Hk; simpl in Hk;
         [ inversion Hk; subst; rewrite Nat.add_0_r; exact Ep
         | rewrite Nat.add_succ_r; exact (Hacc k x Hk) ]
       | exact Hr ]).
Qed.

Lemma resolveOver_identity rs : forall sc flag,
  scAPIVersion (fst (resolveOver rs sc flag)) = scAPIVersion sc /\
  scKind (fst (resolveOver rs sc flag)) = scKind sc /\
  scName (fst (resolveOver rs sc flag)) = scName sc /\
  scUID (fst (resolveOver rs sc flag)) = scUID sc /\
  scTriggers (fst (resolveOver rs sc flag)) = scTriggers sc /\
  scConditions (fst (resolveOver rs sc flag)) = scConditions sc.
Proof.
  unfold resolveOver. induction rs as [|res rs IH]; intros sc flag; simpl.
  - repeat split.
  - unfold resolveStep at 2 4 6 8 10 12. simpl.
    destruct (negb flag && isScalableKind (GetKind res)).
    + destruct (IH (setTargetWorkload sc (targetOf res)) true)
        as (H1 & H2 & H3 & H4 & H5 & H6).
      repeat split; assumption.
    + apply IH.
Qed.

(** A loop that [Reconcile] returns from: a nil [Controller] was
    dereferenced, or a patch was refused and the condition reported. *)
Lemma adoptLoop_left r o rs :
  forall i sc flag out,
  adoptLoop r o i rs sc flag = LoopLeft out ->
  (exists tr, out = Panicked tr) \/
  (exists tr0 res err sc' c,
      out = Returned utilReconcileWaitResult (PatchCondition r sc' c)
              (tr0 ++ [DoPatch res (Some err);
                       DoPatchCondition sc' c (PatchCondition r sc' c)]) /\
      scaledTraits tr0 = [] /\
      scName sc' = scName sc /\ scUID sc' = scUID sc).
Proof.
  induction rs as [|res rs IH]; intros i sc flag out H; simpl in H.
  - discriminate.
  - destruct (demote (GetOwnerReferences res)) as [refs|].
    2:{ inversion H. left. eexists. reflexivity. }
    destruct (Patch r i _) as [err|].
    + inversion H; subst. right.
      exists [], (SetOwnerReferences res (refs ++ [o])), err, sc.
      eexists. repeat split.
    + match type of H with
      | afterLoop _ ?x = _ => destruct x as [? ? ?|out'] eqn:El
      end; [discriminate|].
      simpl in H. inversion H; subst; clear H.
      assert (Hrec : (exists tr, out' = Panicked tr) \/
        (exists tr0 res0 err sc' c,
          out' = Returned utilReconcileWaitResult (PatchCondition r sc' c)
                  (tr0 ++ [DoPatch res0 (Some err);
                           DoPatchCondition sc' c (PatchCondition r sc' c)]) /\
          scaledTraits tr0 = [] /\
          scName sc' = scName sc /\ scUID sc' = scUID sc)).
      { destruct (negb flag && isScalableKind (GetKind _));
          apply IH in El; destruct El as [Hp | (tr0 & res0 & e & sc' & c & Hr)];
          [left; exact Hp | right | left; exact Hp | right];
          exists tr0, res0, e, sc', c; exact Hr. }
      destruct Hrec as [[tr ->] | (tr0 & res0 & e & sc' & c & -> & Hs & Hn & Hu)].
      * left. eexists. reflexivity.
      * right. eexists (_ :: tr0), res0, e, sc', c. simpl.
        repeat split; assumption.
Qed.

Lemma demote_None (refs : list OwnerReference) :
  demote refs = None -> Exists (fun ref => Controller ref = None) refs.
Proof.
  induction refs as [|ref refs IH]; simpl; [discriminate|].
  destruct (Controller ref) as [c|] eqn:Ec.
  - destruct (demote refs); [discriminate|].
    intros _. apply Exists_cons_tl, IH. reflexivity.
  - intros _. apply Exists_cons_hd. exact Ec.
Qed.

(** A loop that [Reconcile] returns from stopped at one resource [res],
    after the accepted patches of the resources before it: at a nil
    [Controller] of [res], or at the refused patch of [res]. *)
Lemma adoptLoop_left_at r o rs :
  forall i sc flag out,
  adoptLoop r o i rs sc flag = LoopLeft out ->
  exists before res rest,
    rs = before ++ res :: rest /\
    Forall controllersSet before /\
    patchesAccepted r o i before /\
    ((Exists (fun ref => Controller ref = None) (GetOwnerReferences res) /\
      out = Panicked (patchEffects o before)) \/
     (exists err c sc',
        controllersSet res /\
        Patch r (i + List.length before) (adopted o res) = Some err /\
        scName sc' = scName sc /\ scUID sc' = scUID sc /\
        out = Returned utilReconcileWaitResult (PatchCondition r sc' c)
                (patchEffects o before
                 ++ [DoPatch (adopted o res) (Some err);
                     DoPatchCondition sc' c (PatchCondition r sc' c)]))).
Proof.
  induction rs as [|res rs IH]; intros i sc flag out H; simpl in H.
  - discriminate.
  - destruct (demote (GetOwnerReferences res)) as [refs|] eqn:Ed.
    2:{ inversion H; subst. exists [], res, rs. repeat split.
        - constructor.
        - intros k x Hk. destruct k; discriminate.
        - left. split; [apply demote_None; exact Ed | reflexivity]. }
    apply demote_inv in Ed. destruct Ed as [Hres ->].
    fold (adopted o res) in H.
    destruct (Patch r i (adopted o res)) as [err|] eqn:Ep.
    + inversion H; subst. exists [], res, rs. repeat split.
      * constructor.
      * intros k x Hk. destruct k; discriminate.
      * right. exists err. eexists. exists sc. simpl.
        rewrite Nat.add_0_r. repeat split; assumption.
    + assert (Hrec : exists sc1 flag1 out1,
                adoptLoop r o (S i) rs sc1 flag1 = LoopLeft out1 /\
                out = after (DoPatch (adopted o res) None) out1 /\
                scName sc1 = scName sc /\ scUID sc1 = scUID sc).
      { simpl in H.
        destruct (negb flag && isScalableKind (GetKind res));
          match type of H with
          | afterLoop _ (adoptLoop _ _ _ _ ?s ?f) = _ =>
              destruct (adoptLoop r o (S i) rs s f) as [? ? ?|out1] eqn:El;
                [discriminate|];
              exists s, f, out1
          end;
          simpl in H; inversion H; subst; repeat split; exact El. }
      destruct Hrec as (sc1 & flag1 & out1 & El & -> & Hn1 & Hu1).
      apply IH in El.
      destruct El as (before & x & rest & -> & Hset & Hacc & Hcase).
      exists (res :: before), x, rest. repeat split.
      * constructor; assumption.
      * intros [|k] y Hk; simpl in Hk.
        -- inversion Hk; subst. rewrite Nat.add_0_r. exact Ep.
        -- rewrite Nat.add_succ_r. exact (Hacc k y Hk).
      * destruct Hcase as [[Hnil ->] | (err & c & sc' & Hx & Hp & Hn & Hu & ->)].
        -- left. split; [exact Hnil | reflexivity].
        -- right. exists err, c, sc'. simpl.
           rewrite Nat.add_succ_r. repeat split; try assumption; congruence.
Qed.

Lemma scaledTraits_patchEffects o rs : scaledTraits (patchEffects o rs) = [].
Proof. induction rs as [|res rs IH]; simpl; [reflexivity | exact IH]. Qed.

Lemma patchedResources_patchEffects o rs :
  patchedResources (patchEffects o rs) = map (adopted o) rs.
Proof. induction rs as [|res rs IH]; simpl; [reflexivity | rewrite IH; reflexivity]. Qed.

Lemma scaledTraits_app tr1 tr2 :
  scaledTraits (tr1 ++ tr2) = scaledTraits tr1 ++ scaledTraits tr2.
Proof.
  induction tr1 as [|e tr1 IH]; simpl; [reflexivity|].
  destruct e; simpl; rewrite IH; reflexivity.
Qed.

Lemma patchedResources_app tr1 tr2 :
  patchedResources (tr1 ++ tr2) = patchedResources tr1 ++ patchedResources tr2.
Proof.
  induction tr1 as [|e tr1 IH]; simpl; [reflexivity|].
  destruct e as [res [err|]| | |]; simpl; rewrite IH; reflexivity.
Qed.

(** ** Reconcile as a whole *)

(** What a successful reconcile went through. *)
Lemma Reconcile_succeeded r req tr :
  Reconcile r req = Returned emptyResult None tr ->
  exists scaler parent workload children,
    Get r req = Ok scaler /\
    LocateParentAppConfig r scaler = Ok parent /\
    FetchWorkload r scaler = Ok workload /\
    FetchWorkloadChildResources r workload = Ok children /\
    Forall controllersSet (children ++ [workload]) /\
    patchesAccepted r (traitOwnerReference scaler) 0 (children ++ [workload]) /\
    scaleByKEDA r (traitToScale scaler children workload) (Namespace req) = None /\
    tr = patchEffects (traitOwnerReference scaler) (children ++ [workload])
         ++ [DoScaleByKEDA (traitToScale scaler children workload)
               (Namespace req) None].
Proof.
  unfold Reconcile. intros H.
  destruct (Get r req) as [scaler|e] eqn:Hg; [|discriminate].
  destruct (LocateParentAppConfig r scaler) as [parent|e] eqn:Hl; [|discriminate].
  destruct (FetchWorkload r scaler) as [workload|e] eqn:Hw; [|discriminate].
  destruct (FetchWorkloadChildResources r workload) as [children|e] eqn:Hc;
    [|discriminate].
  destruct (adoptLoop _ _ _ _ _ _) as [sc' flag' tr'|out] eqn:El.
  - apply adoptLoop_done in El. destruct El as (Hset & Hacc & -> & Hr).
    assert (Hsc : sc' = fst (resolveOver (children ++ [workload]) scaler false))
      by (rewrite <- Hr; reflexivity).
    assert (Hfl : flag' = snd (resolveOver (children ++ [workload]) scaler false))
      by (rewrite <- Hr; reflexivity).
    subst sc' flag'. fold (traitToScale scaler children workload) in H.
    destruct (scaleByKEDA r _ _) eqn:Ek; [discriminate|].
    inversion H; subst.
    exists scaler, parent, workload, children. repeat split; try assumption.
  - subst out. apply adoptLoop_left in El.
    destruct El as [[tr0 E] | (tr0 & res & e & sc' & c & E & _)];
      discriminate.
Qed.


Lemma traitToScale_identity scaler children workload :
  setTargetWorkload (traitToScale scaler children workload)
    (scTargetWorkload scaler) = scaler.
Proof.
  unfold traitToScale.
  destruct (resolveOver_identity (children ++ [workload]) scaler false)
    as (H1 & H2 & H3 & H4 & H5 & H6).
  destruct ((List.length (children ++ [workload]) =? 1)%nat
            && negb (snd (resolveOver (children ++ [workload]) scaler false)));
    unfold setTargetWorkload; simpl;
    rewrite H1, H2, H3, H4, H5, H6; destruct scaler; reflexivity.
Qed.

(** Every way [Reconcile] returns, one case for each [return] of the
    source, with the calls made on the way. *)
Lemma Reconcile_returned r req res err tr :
  Reconcile r req = Returned res err tr ->
  (exists e, Get r req = Err e /\ res = ReconcileWaitResult /\
             err = IgnoreNotFound e /\ tr = []) \/
  exists scaler, Get r req = Ok scaler /\
  ((exists e c, LocateParentAppConfig r scaler = Err e /\
        res = utilReconcileWaitResult /\ err = PatchCondition r scaler c /\
        tr = [DoPatchCondition scaler c err]) \/
   exists parent, LocateParentAppConfig r scaler = Ok parent /\
   ((exists e c, FetchWorkload r scaler = Err e /\
         res = utilReconcileWaitResult /\ err = PatchCondition r scaler c /\
         tr = [DoEvent (OnTrait scaler) (ErrLocatingWorkload r) e;
               DoPatchCondition scaler c err]) \/
    exists workload, FetchWorkload r scaler = Ok workload /\
    ((exists e c, FetchWorkloadChildResources r workload = Err e /\
          res = utilReconcileWaitResult /\ err = PatchCondition r scaler c /\
          tr = [DoEvent (match parent with
                         | Some appConfig => OnParent appConfig
                         | None => OnTrait scaler
                         end) (ErrFetchChildResources r) e;
                DoPatchCondition scaler c err]) \/
     exists children, FetchWorkloadChildResources r workload = Ok children /\
     ((exists before x rest e sc c,
          children ++ [workload] = before ++ x :: rest /\
          Patch r (List.length before) (adopted (traitOwnerReference scaler) x)
          = Some e /\
          scName sc = scName scaler /\ scUID sc = scUID scaler /\
          res = utilReconcileWaitResult /\ err = PatchCondition r sc c /\
          tr = patchEffects (traitOwnerReference scaler) before
               ++ [DoPatch (adopted (traitOwnerReference scaler) x) (Some e);
                   DoPatchCondition sc c err]) \/
      (err = scaleByKEDA r (traitToScale scaler children workload) (Namespace req) /\
       res = match err with
             | Some _ => ReconcileWaitResult
             | None => emptyResult
             end /\
       tr = patchEffects (traitOwnerReference scaler) (children ++ [workload])
            ++ [DoScaleByKEDA (traitToScale scaler children workload)
                  (Namespace req) err]))))).
Proof.
  unfold Reconcile. intros H.
  destruct (Get r req) as [scaler|e] eqn:Hg.
  2:{ left. inversion H; subst. exists e. repeat split. }
  right. exists scaler. split; [reflexivity|].
  destruct (LocateParentAppConfig r scaler) as [parent|e] eqn:Hl.
  2:{ left. inversion H; subst. eexists e, _. repeat split. }
  right. exists parent. split; [reflexivity|].
  destruct (FetchWorkload r scaler) as [workload|e] eqn:Hw.
  2:{ left. inversion H; subst. eexists e, _. repeat split. }
  right. exists workload. split; [reflexivity|].
  destruct (FetchWorkloadChildResources r workload) as [children|e] eqn:Hc.
  2:{ left. inversion H; subst. eexists e, _. repeat split. }
  right. exists children. split; [reflexivity|].
  destruct (adoptLoop _ _ _ _ _ _) as [sc' flag' tr'|out] eqn:El.
  - right. apply adoptLoop_done in El. destruct El as (_ & _ & -> & Hr).
    assert (Hsc : sc' = fst (resolveOver (children ++ [workload]) scaler false))
      by (rewrite <- Hr; reflexivity).
    assert (Hfl : flag' = snd (resolveOver (children ++ [workload]) scaler false))
      by (rewrite <- Hr; reflexivity).
    subst sc' flag'. fold (traitToScale scaler children workload) in H.
    destruct (scaleByKEDA r _ _) as [e|]; inversion H; subst; repeat split.
  - left. subst out. apply adoptLoop_left_at in El.
    destruct El as (before & x & rest & Hsplit & _ & _ & Hcase).
    destruct Hcase as [[_ E] | (e & c & sc & _ & Hp & Hn & Hu & E)];
      [discriminate|].
    inversion E; subst. exists before, x, rest, e, sc, c.
    repeat split; assumption.
Qed.

(** ** Adoption by the trait *)

Lemma adoptedBy_adopted (scaler : Autoscaler) (res : Unstructured) :
  adoptedBy scaler res (adopted (traitOwnerReference scaler) res).
Proof.
  unfold adoptedBy. repeat split.
  - apply controllers_of_adopted. reflexivity.
  - unfold adopted. simpl. rewrite length_app, length_map. simpl. lia.
  - intros k ref Hk. exists (demoted ref). split; [|split].
    + unfold adopted. simpl. rewrite nth_error_app1.
      * rewrite nth_error_map, Hk. reflexivity.
      * rewrite length_map. apply nth_error_Some. congruence.
    + destruct (demoted_fields ref) as (H1 & H2 & H3 & H4 & H5).
      unfold sameButController. repeat split; assumption.
    + destruct (demoted_controller ref) as [Ht Hf]. split; [exact Ht|].
      intros Hc. apply Hf. congruence.
Qed.

Lemma adoptedBy_map (scaler : Autoscaler) (rs : list Unstructured) :
  Forall2 (adoptedBy scaler) rs (map (adopted (traitOwnerReference scaler)) rs).
Proof.
  induction rs as [|res rs IH]; simpl; constructor;
    [apply adoptedBy_adopted | exact IH].
Qed.

(** C1: after a successful reconcile each discovered child resource and the
    workload is in the store as the trait adopted it: exactly one owner
    reference has controller=true and it names the trait (apiVersion, kind,
    name, UID, blockOwnerDeletion=true); every earlier reference is still
    there, at its place, one that was a controller with controller=false;
    none is deleted (the list is one longer). *)
Theorem reconcile_adopts_every_resource r req tr :
  Reconcile r req = Returned emptyResult None tr ->
  exists scaler workload children,
    Get r req = Ok scaler /\
    FetchWorkload r scaler = Ok workload /\
    FetchWorkloadChildResources r workload = Ok children /\
    Forall2 (adoptedBy scaler) (children ++ [workload]) (patchedResources tr).
Proof.
  intros H. apply Reconcile_succeeded in H.
  destruct H as (scaler & parent & workload & children
                 & Hg & Hl & Hw & Hc & Hset & Hacc & Hk & ->).
  exists scaler, workload, children. repeat split; try assumption.
  rewrite patchedResources_app, patchedResources_patchEffects. simpl.
  rewrite app_nil_r.
  apply adoptedBy_map.
Qed.

Lemma reconcile_adopts_every_resource_witness :
  exists scaler workload children,
    Get (Sample.cluster (Ok Sample.trait) Sample.containerized
           [Sample.deployment; Sample.service] Sample.accepting None)
        Sample.req = Ok scaler /\
    FetchWorkload (Sample.cluster (Ok Sample.trait) Sample.containerized
           [Sample.deployment; Sample.service] Sample.accepting None)
        scaler = Ok workload /\
    FetchWorkloadChildResources (Sample.cluster (Ok Sample.trait)
           Sample.containerized [Sample.deployment; Sample.service]
           Sample.accepting None)
        workload = Ok children /\
    Forall2 (adoptedBy scaler) (children ++ [workload])
      (patchedResources
         (traceOf (Reconcile
            (Sample.cluster (Ok Sample.trait) Sample.containerized
               [Sample.deployment; Sample.service] Sample.accepting None)
            Sample.req))).
Proof.
  apply (reconcile_adopts_every_resource
           (Sample.cluster (Ok Sample.trait) Sample.containerized
              [Sample.deployment; Sample.service] Sample.accepting None)
           Sample.req).
  vm_compute. reflexivity.
Defined.

Lemma isScalableKind_true (kind : string) :
  isScalableKind kind = true <-> kind = "Deployment" \/ kind = "StatefulSet".
Proof.
  unfold isScalableKind. rewrite orb_true_iff, !String.eqb_eq. reflexivity.
Qed.

Lemma isScalableKind_false (kind : string) :
  isScalableKind kind = false <-> kind <> "Deployment" /\ kind <> "StatefulSet".
Proof.
  unfold isScalableKind. rewrite orb_false_iff, !String.eqb_neq. reflexivity.
Qed.

Lemma traitToScale_first scaler workload children before res rest :
  children ++ [workload] = before ++ res :: rest ->
  Forall (fun x => isScalableKind (GetKind x) = false) before ->
  isScalableKind (GetKind res) = true ->
  traitToScale scaler children workload = setTargetWorkload scaler (targetOf res).
Proof.
  intros Hsplit Hb Hres. unfold traitToScale.
  rewrite Hsplit, (resolveOver_first _ _ _ _ Hb Hres). simpl.
  rewrite andb_false_r. reflexivity.
Qed.

(** C5: target resolution is first-match.  When the discovered list, in
    discovery order with the workload last, is [before ++ res :: rest], no
    resource of [before] is a Deployment or a StatefulSet and [res] is one,
    a successful reconcile hands [scaleByKEDA] the trait with [res] as its
    target workload, whatever [rest] holds. *)
Theorem target_is_first_scalable r req tr scaler workload children before res rest :
  Reconcile r req = Returned emptyResult None tr ->
  Get r req = Ok scaler ->
  FetchWorkload r scaler = Ok workload ->
  FetchWorkloadChildResources r workload = Ok children ->
  children ++ [workload] = before ++ res :: rest ->
  Forall (fun x => GetKind x <> "Deployment" /\ GetKind x <> "StatefulSet") before ->
  GetKind res = "Deployment" \/ GetKind res = "StatefulSet" ->
  exists sc,
    scaledTraits tr = [(sc, Namespace req)] /\
    scTargetWorkload sc
    = mkTargetWorkload (GetAPIVersion res) (GetKind res) (GetName res).
Proof.
  intros H Hg Hw Hc Hsplit Hb Hres. apply Reconcile_succeeded in H.
  destruct H as (scaler' & parent & workload' & children'
                 & Hg' & _ & Hw' & Hc' & _ & _ & _ & ->).
  rewrite Hg in Hg'. inversion Hg'; subst scaler'.
  rewrite Hw in Hw'. inversion Hw'; subst workload'.
  rewrite Hc in Hc'. inversion Hc'; subst children'.
  rewrite scaledTraits_app, scaledTraits_patchEffects. simpl.
  eexists. split; [reflexivity|].
  rewrite (traitToScale_first scaler workload children before res rest Hsplit).
  - reflexivity.
  - eapply Forall_impl; [|exact Hb]. intros x Hx. apply isScalableKind_false, Hx.
  - apply isScalableKind_true, Hres.
Qed.

Lemma target_is_first_scalable_witness :
  exists sc,
    scaledTraits
      (traceOf (Reconcile
         (Sample.cluster (Ok Sample.trait) Sample.containerized
            [Sample.service; Sample.statefulSet; Sample.deployment]
            Sample.accepting None)
         Sample.req))
    = [(sc, "default")] /\
    scTargetWorkload sc = mkTargetWorkload "apps/v1" "StatefulSet" "db".
Proof.
  apply (target_is_first_scalable
           (Sample.cluster (Ok Sample.trait) Sample.containerized
              [Sample.service; Sample.statefulSet; Sample.deployment]
              Sample.accepting None)
           Sample.req _ Sample.trait Sample.containerized
           [Sample.service; Sample.statefulSet; Sample.deployment]
           [Sample.service] Sample.statefulSet
           [Sample.deployment; Sample.containerized]).
  - vm_compute. reflexivity.
  - reflexivity.
  - reflexivity.
  - reflexivity.
  - reflexivity.
  - constructor; [|constructor]. split; discriminate.
  - right. reflexivity.
Defined.

(** X8: what the code does for the workload alone: with no child resource and
    a workload that is no Deployment and no StatefulSet, the workload is the
    target. *)
Lemma target_is_lone_workload r req tr scaler workload :
  Reconcile r req = Returned emptyResult None tr ->
  Get r req = Ok scaler ->
  FetchWorkload r scaler = Ok workload ->
  FetchWorkloadChildResources r workload = Ok [] ->
  exists sc,
    scaledTraits tr = [(sc, Namespace req)] /\
    scTargetWorkload sc = targetOf workload.
Proof.
  intros H Hg Hw Hc. apply Reconcile_succeeded in H.
  destruct H as (scaler' & parent & workload' & children'
                 & Hg' & _ & Hw' & Hc' & _ & _ & _ & ->).
  rewrite Hg in Hg'. inversion Hg'; subst scaler'.
  rewrite Hw in Hw'. inversion Hw'; subst workload'.
  rewrite Hc in Hc'. inversion Hc'; subst children'.
  rewrite scaledTraits_app, scaledTraits_patchEffects. simpl.
  eexists. split; [reflexivity|].
  unfold traitToScale, resolveOver. simpl. unfold resolveStep. simpl.
  destruct (isScalableKind (GetKind workload)); reflexivity.
Qed.

(** C6, the code at a workload with a child resource that is not scalable:
    a ContainerizedWorkload with one Service.  The reconcile succeeds and
    the trait handed to [scaleByKEDA] has the target workload it was
    fetched with (none), not the workload: the fallback is taken only when
    the list is the workload alone, though the comment above it also names
    the case of no child resource being a Deployment or StatefulSet. *)
Theorem unscalable_child_leaves_target_unset :
  Reconcile (Sample.cluster (Ok Sample.trait) Sample.containerized
               [Sample.service] Sample.accepting None) Sample.req
  = Returned emptyResult None
      [DoPatch (adopted (traitOwnerReference Sample.trait) Sample.service) None;
       DoPatch (adopted (traitOwnerReference Sample.trait) Sample.containerized) None;
       DoScaleByKEDA Sample.trait "default" None] /\
  scTargetWorkload Sample.trait = noTargetWorkload /\
  scTargetWorkload Sample.trait <> targetOf Sample.containerized.
Proof.
  split; [vm_compute; reflexivity|]. split; [reflexivity|].
  vm_compute. discriminate.
Qed.

(** C9: when the trait is not found, [Reconcile] returns a nil error and
    has made no call that writes to the cluster: no condition, no event, no
    patch, no scaling object. *)
Theorem trait_not_found_exits_cleanly r req msg :
  Get r req = Err (ErrNotFound msg) ->
  Reconcile r req = Returned ReconcileWaitResult None [].
Proof.
  intros H. unfold Reconcile. rewrite H. reflexivity.
Qed.

Lemma trait_not_found_exits_cleanly_witness :
  Reconcile (Sample.cluster (Err (ErrNotFound "autoscalers web-scaler not found"))
               Sample.containerized [] Sample.accepting None) Sample.req
  = Returned ReconcileWaitResult None [].
Proof.
  apply (trait_not_found_exits_cleanly
           (Sample.cluster (Err (ErrNotFound "autoscalers web-scaler not found"))
              Sample.containerized [] Sample.accepting None)
           Sample.req "autoscalers web-scaler not found").
  reflexivity.
Defined.

(** C10, the code at a resource with an owner reference whose controller
    flag is absent: the demotion loop dereferences the nil pointer and
    [Reconcile] panics, before any patch. *)
Theorem nil_controller_panics :
  Reconcile (Sample.cluster (Ok Sample.trait) Sample.configured []
               Sample.accepting None) Sample.req
  = Panicked [].
Proof. vm_compute. reflexivity. Qed.

(** ** Leaving the adoption loop *)

Lemma afterEffects_left es res err tr :
  afterEffects es (LoopLeft (Returned res err tr))
  = LoopLeft (Returned res err (es ++ tr)).
Proof.
  unfold afterEffects. induction es as [|e es IH]; simpl; [reflexivity|].
  rewrite IH. reflexivity.
Qed.

Lemma afterEffects_panicked es tr :
  afterEffects es (LoopLeft (Panicked tr)) = LoopLeft (Panicked (es ++ tr)).
Proof.
  unfold afterEffects. induction es as [|e es IH]; simpl; [reflexivity|].
  rewrite IH. reflexivity.
Qed.

Lemma patchedResources_refused o before res err e :
  patchedResources (patchEffects o before ++ [DoPatch res (Some err); e])
  = map (adopted o) before ++ patchedResources [e].
Proof.
  rewrite patchedResources_app, patchedResources_patchEffects. reflexivity.
Qed.

(** C8: when the patch of a resource of the discovered list is refused,
    after the patches of the resources before it were accepted, [Reconcile]
    returns the 30 second requeue result with what [util.PatchCondition]
    answers; it has patched the resources before the refused one, which
    stay patched, made no call for a later one, and its last call patches
    the condition onto the trait. *)
Theorem refused_patch_aborts_adoption
    r req scaler parent workload children before res rest err :
  Get r req = Ok scaler ->
  LocateParentAppConfig r scaler = Ok parent ->
  FetchWorkload r scaler = Ok workload ->
  FetchWorkloadChildResources r workload = Ok children ->
  children ++ [workload] = before ++ res :: rest ->
  Forall controllersSet (before ++ [res]) ->
  patchesAccepted r (traitOwnerReference scaler) 0 before ->
  Patch r (List.length before) (adopted (traitOwnerReference scaler) res) = Some err ->
  exists sc c tr,
    Reconcile r req = Returned utilReconcileWaitResult (PatchCondition r sc c) tr /\
    RequeueAfter utilReconcileWaitResult = (30 * 1000000000)%Z /\
    tr = patchEffects (traitOwnerReference scaler) before
         ++ [DoPatch (adopted (traitOwnerReference scaler) res) (Some err);
             DoPatchCondition sc c (PatchCondition r sc c)] /\
    patchedResources tr = map (adopted (traitOwnerReference scaler)) before /\
    scName sc = scName scaler /\ scUID sc = scUID scaler.
Proof.
  intros Hg Hl Hw Hc Hsplit Hset Hacc Hp.
  apply Forall_app in Hset. destruct Hset as [Hbefore Hres].
  inversion Hres as [|? ? Hres' _]; subst.
  set (o := traitOwnerReference scaler) in *.
  set (st := resolveOver before scaler false).
  exists (fst st),
    (ReconcileError (Wrap err "Failed to set ownerReference for child resource")).
  eexists. split; [|split; [reflexivity|split; [reflexivity|split]]].
  - unfold Reconcile. rewrite Hg, Hl, Hw, Hc. fold o. rewrite Hsplit.
    rewrite (adoptLoop_app r o before 0 (res :: rest) scaler false Hbefore Hacc).
    simpl adoptLoop. rewrite (demote_total _ Hres').
    fold (adopted o res). simpl plus. rewrite Hp.
    rewrite afterEffects_left. fold st. reflexivity.
  - rewrite patchedResources_refused. simpl. apply app_nil_r.
  - destruct (resolveOver_identity before scaler false) as (_ & _ & Hn & Hu & _).
    split; assumption.
Qed.

Lemma refused_patch_aborts_adoption_witness :
  exists sc c tr,
    Reconcile (Sample.cluster (Ok Sample.trait) Sample.containerized
                 [Sample.deployment; Sample.service; Sample.statefulSet]
                 (Sample.refusingAt 1) None) Sample.req
    = Returned utilReconcileWaitResult
        (PatchCondition (Sample.cluster (Ok Sample.trait) Sample.containerized
                 [Sample.deployment; Sample.service; Sample.statefulSet]
                 (Sample.refusingAt 1) None) sc c) tr /\
    RequeueAfter utilReconcileWaitResult = (30 * 1000000000)%Z /\
    tr = patchEffects (traitOwnerReference Sample.trait) [Sample.deployment]
         ++ [DoPatch (adopted (traitOwnerReference Sample.trait) Sample.service)
               (Some (ErrOther "conflict"));
             DoPatchCondition sc c
               (PatchCondition (Sample.cluster (Ok Sample.trait) Sample.containerized
                 [Sample.deployment; Sample.service; Sample.statefulSet]
                 (Sample.refusingAt 1) None) sc c)] /\
    patchedResources tr
    = map (adopted (traitOwnerReference Sample.trait)) [Sample.deployment] /\
    scName sc = scName Sample.trait /\ scUID sc = scUID Sample.trait.
Proof.
  apply (refused_patch_aborts_adoption
           (Sample.cluster (Ok Sample.trait) Sample.containerized
              [Sample.deployment; Sample.service; Sample.statefulSet]
              (Sample.refusingAt 1) None)
           Sample.req Sample.trait None Sample.containerized
           [Sample.deployment; Sample.service; Sample.statefulSet]
           [Sample.deployment] Sample.service
           [Sample.statefulSet; Sample.containerized]
           (ErrOther "conflict")).
  - reflexivity.
  - reflexivity.
  - reflexivity.
  - reflexivity.
  - reflexivity.
  - repeat constructor; simpl; discriminate.
  - intros [|k] x Hk; simpl in Hk; [reflexivity | destruct k; discriminate].
  - reflexivity.
Defined.

(** ** Reporting *)

Lemma reported_app tr1 tr2 : reported (tr1 ++ tr2) = reported tr1 || reported tr2.
Proof. apply existsb_app. Qed.

(** C4, the trait fetch: when [Get] fails with an error other than
    not-found, [Reconcile] returns that error and has patched no condition
    and recorded no event. *)
Lemma failed_trait_fetch_is_not_reported :
  Reconcile (Sample.cluster (Err (ErrOther "etcdserver: request timed out"))
               Sample.containerized [] Sample.accepting None) Sample.req
  = Returned ReconcileWaitResult (Some (ErrOther "etcdserver: request timed out")) [] /\
  reported (traceOf
    (Reconcile (Sample.cluster (Err (ErrOther "etcdserver: request timed out"))
                  Sample.containerized [] Sample.accepting None) Sample.req))
  = false.
Proof. split; reflexivity. Qed.

(** C4 as amended: once the trait is fetched, every return of [Reconcile]
    that comes before [scaleByKEDA] is called has [util.PatchCondition] on
    the trait as its last call and returns its answer.  These returns are
    four: the parent is not located (the condition is the only call); the
    workload is not fetched (a warning event on the trait comes first); the
    child resources are not fetched (a warning event on the parent, or on
    the trait when there is no parent, comes first); a patch of the owner
    references is refused (after the accepted patches before it). *)
Theorem failures_before_scaling_are_reported r req scaler res err tr :
  Get r req = Ok scaler ->
  Reconcile r req = Returned res err tr ->
  scaledTraits tr = [] ->
  (exists tr0 sc c,
     tr = tr0 ++ [DoPatchCondition sc c err] /\
     err = PatchCondition r sc c /\
     scName sc = scName scaler /\ scUID sc = scUID scaler /\
     reported tr = true) /\
  ((exists e c,
      LocateParentAppConfig r scaler = Err e /\
      tr = [DoPatchCondition scaler c err]) \/
   (exists parent e c,
      LocateParentAppConfig r scaler = Ok parent /\
      FetchWorkload r scaler = Err e /\
      tr = [DoEvent (OnTrait scaler) (ErrLocatingWorkload r) e;
            DoPatchCondition scaler c err]) \/
   (exists parent workload e c,
      LocateParentAppConfig r scaler = Ok parent /\
      FetchWorkload r scaler = Ok workload /\
      FetchWorkloadChildResources r workload = Err e /\
      tr = [DoEvent (match parent with
                     | Some appConfig => OnParent appConfig
                     | None => OnTrait scaler
                     end) (ErrFetchChildResources r) e;
            DoPatchCondition scaler c err]) \/
   (exists workload children before x rest e sc c,
      FetchWorkload r scaler = Ok workload /\
      FetchWorkloadChildResources r workload = Ok children /\
      children ++ [workload] = before ++ x :: rest /\
      Patch r (List.length before) (adopted (traitOwnerReference scaler) x)
      = Some e /\
      tr = patchEffects (traitOwnerReference scaler) before
           ++ [DoPatch (adopted (traitOwnerReference scaler) x) (Some e);
               DoPatchCondition sc c err])).
Proof.
  intros Hg H Hs. apply Reconcile_returned in H.
  destruct H as [(e & Hg' & _) | (scaler' & Hg' & H)]; [congruence|].
  rewrite Hg in Hg'. inversion Hg'; subst scaler'. clear Hg'.
  destruct H as [(e & c & Hl & _ & He & ->) | (parent & Hl & H)].
  { split.
    - exists [], scaler, c. repeat split. exact He.
    - left. exists e, c. split; [exact Hl | reflexivity]. }
  destruct H as [(e & c & Hw & _ & He & ->) | (workload & Hw & H)].
  { split.
    - eexists [_], scaler, c. repeat split. exact He.
    - right. left. exists parent, e, c. repeat split; assumption. }
  destruct H as [(e & c & Hc & _ & He & ->) | (children & Hc & H)].
  { split.
    - eexists [_], scaler, c. repeat split. exact He.
    - right. right. left. exists parent, workload, e, c.
      repeat split; assumption. }
  destruct H as [(before & x & rest & e & sc & c
                  & Hsplit & Hp & Hn & Hu & _ & He & ->) | (_ & _ & ->)].
  - split.
    + exists (patchEffects (traitOwnerReference scaler) before
              ++ [DoPatch (adopted (traitOwnerReference scaler) x) (Some e)]),
        sc, c.
      repeat split; try assumption.
      * rewrite <- app_assoc. reflexivity.
      * rewrite !reported_app. simpl. apply orb_true_r.
    + right. right. right.
      exists workload, children, before, x, rest, e, sc, c.
      repeat split; assumption.
  - exfalso. rewrite scaledTraits_app in Hs. apply app_eq_nil in Hs.
    destruct Hs as [_ Hs]. discriminate.
Qed.

Lemma failures_before_scaling_are_reported_witness :
  let r := mkReconciler (fun _ => Ok Sample.trait) (fun _ _ => None)
             (fun _ => Ok (Some "web-app"))
             (fun _ => Ok Sample.containerized)
             (fun _ => Err (ErrOther "no kind Deployment is registered"))
             (fun _ _ => None) (fun _ _ => None)
             "cannot locate the parent application configuration"
             "failed to fetch workload child resources"
             "failed to locate the workload" in
  let scaler := Sample.trait in
  let err := @None error in
  let tr := traceOf (Reconcile r Sample.req) in
  (exists tr0 sc c,
     tr = tr0 ++ [DoPatchCondition sc c err] /\
     err = PatchCondition r sc c /\
     scName sc = scName scaler /\ scUID sc = scUID scaler /\
     reported tr = true) /\
  ((exists e c,
      LocateParentAppConfig r scaler = Err e /\
      tr = [DoPatchCondition scaler c err]) \/
   (exists parent e c,
      LocateParentAppConfig r scaler = Ok parent /\
      FetchWorkload r scaler = Err e /\
      tr = [DoEvent (OnTrait scaler) (ErrLocatingWorkload r) e;
            DoPatchCondition scaler c err]) \/
   (exists parent workload e c,
      LocateParentAppConfig r scaler = Ok parent /\
      FetchWorkload r scaler = Ok workload /\
      FetchWorkloadChildResources r workload = Err e /\
      tr = [DoEvent (match parent with
                     | Some appConfig => OnParent appConfig
                     | None => OnTrait scaler
                     end) (ErrFetchChildResources r) e;
            DoPatchCondition scaler c err]) \/
   (exists workload children before x rest e sc c,
      FetchWorkload r scaler = Ok workload /\
      FetchWorkloadChildResources r workload = Ok children /\
      children ++ [workload] = before ++ x :: rest /\
      Patch r (List.length before) (adopted (traitOwnerReference scaler) x)
      = Some e /\
      tr = patchEffects (traitOwnerReference scaler) before
           ++ [DoPatch (adopted (traitOwnerReference scaler) x) (Some e);
               DoPatchCondition sc c err])).
Proof.
  intros r scaler err tr.
  apply (failures_before_scaling_are_reported r Sample.req scaler
           utilReconcileWaitResult err tr).
  - reflexivity.
  - vm_compute. reflexivity.
  - reflexivity.
Defined.

(** ** Reconciling again *)






(** ** The target workload from one reconcile to the next *)

(** C3, the code at a later reconcile: a first reconcile resolves the
    Deployment as target; a later one fetches the trait with that target
    as its stored target workload, and meanwhile a StatefulSet appeared
    before the Deployment in the discovered list.  The later reconcile
    succeeds and hands [scaleByKEDA] the StatefulSet: the target is
    computed anew and the pointer the trait was fetched with is not read. *)
Lemma stored_target_is_recomputed :
  let first :=
    Reconcile (Sample.cluster (Ok Sample.trait) Sample.containerized
                 [Sample.deployment] Sample.accepting None) Sample.req in
  let stored :=
    setTargetWorkload Sample.trait (mkTargetWorkload "apps/v1" "Deployment" "web") in
  let later :=
    Reconcile (Sample.cluster (Ok stored) Sample.containerized
                 [Sample.statefulSet; Sample.deployment] Sample.accepting None)
              Sample.req in
  succeeded first = true /\
  map (fun x => scTargetWorkload (fst x)) (scaledTraits (traceOf first))
  = [scTargetWorkload stored] /\
  succeeded later = true /\
  map (fun x => scTargetWorkload (fst x)) (scaledTraits (traceOf later))
  = [mkTargetWorkload "apps/v1" "StatefulSet" "db"] /\
  map (fun x => scTargetWorkload (fst x)) (scaledTraits (traceOf later))
  <> [scTargetWorkload stored].
Proof.
  repeat split; try (vm_compute; reflexivity).
  vm_compute. discriminate.
Qed.

(** C3 as amended: when target resolution selects a resource, a successful
    reconcile sets its (apiVersion, kind, name) as target workload of the
    trait it holds, replacing whatever target workload the trait was
    fetched with, and hands this trait to [scaleByKEDA]; the calls
    [Reconcile] makes on the way are the accepted patches of owner
    references and that one call of [scaleByKEDA], none of them a write of
    the trait. *)
Theorem resolved_target_is_handed_to_scaler
    r req tr scaler workload children before res rest :
  Reconcile r req = Returned emptyResult None tr ->
  Get r req = Ok scaler ->
  FetchWorkload r scaler = Ok workload ->
  FetchWorkloadChildResources r workload = Ok children ->
  children ++ [workload] = before ++ res :: rest ->
  Forall (fun x => GetKind x <> "Deployment" /\ GetKind x <> "StatefulSet") before ->
  GetKind res = "Deployment" \/ GetKind res = "StatefulSet" ->
  scaledTraits tr
  = [(setTargetWorkload scaler
        (mkTargetWorkload (GetAPIVersion res) (GetKind res) (GetName res)),
      Namespace req)] /\
  forall e, In e tr ->
    (exists x, In x (children ++ [workload]) /\
               e = DoPatch (adopted (traitOwnerReference scaler) x) None) \/
    e = DoScaleByKEDA
          (setTargetWorkload scaler
             (mkTargetWorkload (GetAPIVersion res) (GetKind res) (GetName res)))
          (Namespace req) None.
Proof.
  intros H Hg Hw Hc Hsplit Hb Hres. apply Reconcile_succeeded in H.
  destruct H as (scaler' & parent & workload' & children'
                 & Hg' & _ & Hw' & Hc' & _ & _ & _ & ->).
  rewrite Hg in Hg'. inversion Hg'; subst scaler'.
  rewrite Hw in Hw'. inversion Hw'; subst workload'.
  rewrite Hc in Hc'. inversion Hc'; subst children'.
  rewrite (traitToScale_first scaler workload children before res rest Hsplit).
  - split.
    + rewrite scaledTraits_app, scaledTraits_patchEffects. reflexivity.
    + intros e He. apply in_app_or in He. destruct He as [He|[He|[]]].
      * left. unfold patchEffects in He. apply in_map_iff in He.
        destruct He as (x & <- & Hx). exists x. split; [exact Hx | reflexivity].
      * right. symmetry. exact He.
  - eapply Forall_impl; [|exact Hb]. intros x Hx. apply isScalableKind_false, Hx.
  - apply isScalableKind_true, Hres.
Qed.

Lemma resolved_target_is_handed_to_scaler_witness :
  scaledTraits
    (traceOf (Reconcile
       (Sample.cluster
          (Ok (setTargetWorkload Sample.trait
                 (mkTargetWorkload "apps/v1" "Deployment" "web")))
          Sample.containerized [Sample.statefulSet; Sample.deployment]
          Sample.accepting None) Sample.req))
  = [(setTargetWorkload
        (setTargetWorkload Sample.trait
           (mkTargetWorkload "apps/v1" "Deployment" "web"))
        (mkTargetWorkload "apps/v1" "StatefulSet" "db"), "default")] /\
  forall e,
    In e (traceOf (Reconcile
       (Sample.cluster
          (Ok (setTargetWorkload Sample.trait
                 (mkTargetWorkload "apps/v1" "Deployment" "web")))
          Sample.containerized [Sample.statefulSet; Sample.deployment]
          Sample.accepting None) Sample.req)) ->
    (exists x,
        In x ([Sample.statefulSet; Sample.deployment] ++ [Sample.containerized]) /\
        e = DoPatch
              (adopted
                 (traitOwnerReference
                    (setTargetWorkload Sample.trait
                       (mkTargetWorkload "apps/v1" "Deployment" "web"))) x)
              None) \/
    e = DoScaleByKEDA
          (setTargetWorkload
             (setTargetWorkload Sample.trait
                (mkTargetWorkload "apps/v1" "Deployment" "web"))
             (mkTargetWorkload "apps/v1" "StatefulSet" "db"))
          "default" None.
Proof.
  apply (resolved_target_is_handed_to_scaler
           (Sample.cluster
              (Ok (setTargetWorkload Sample.trait
                     (mkTargetWorkload "apps/v1" "Deployment" "web")))
              Sample.containerized [Sample.statefulSet; Sample.deployment]
              Sample.accepting None)
           Sample.req _
           (setTargetWorkload Sample.trait
              (mkTargetWorkload "apps/v1" "Deployment" "web"))
           Sample.containerized [Sample.statefulSet; Sample.deployment]
           [] Sample.statefulSet [Sample.deployment; Sample.containerized]).
  - vm_compute. reflexivity.
  - reflexivity.
  - reflexivity.
  - reflexivity.
  - reflexivity.
  - constructor.
  - right. reflexivity.
Defined.

(** ** Cron triggers *)

Module ValidatorFacts.
Import Validator.









(** The scaling object written for a trait with a cpu trigger, a cron
    trigger from 12:01 for 13 hours and one from 09:00 for 2 hours: the
    late cron trigger is left out, the other two are delegated, and the
    reconcile succeeds. *)
Lemma late_cron_trigger_is_left_out :
  succeeded (Reconcile (Sample.synchronizing Sample.triggered Sample.containerized
                          [Sample.deployment]) Sample.req) = true /\
  map (fun x => soTriggers (scaledObjectOf (fst x) (snd x)))
    (scaledTraits
       (traceOf (Reconcile (Sample.synchronizing Sample.triggered
                              Sample.containerized [Sample.deployment])
                   Sample.req)))
  = [[Sample.cpuTrigger; Sample.morningCronTrigger]].
Proof. split; vm_compute; reflexivity. Qed.

End ValidatorFacts.

(** ** A nil controller flag *)

(** X2: whatever the cluster, the first discovered resource that carries an
    owner reference without controller flag makes [Reconcile] panic, after
    the patches of the resources before it. *)
Lemma nil_controller_panics_everywhere
    r req scaler parent workload children before res rest :
  Get r req = Ok scaler ->
  LocateParentAppConfig r scaler = Ok parent ->
  FetchWorkload r scaler = Ok workload ->
  FetchWorkloadChildResources r workload = Ok children ->
  children ++ [workload] = before ++ res :: rest ->
  Forall controllersSet before ->
  patchesAccepted r (traitOwnerReference scaler) 0 before ->
  Exists (fun ref => Controller ref = None) (GetOwnerReferences res) ->
  Reconcile r req = Panicked (patchEffects (traitOwnerReference scaler) before).
Proof.
  intros Hg Hl Hw Hc Hsplit Hbefore Hacc Hnil.
  unfold Reconcile. rewrite Hg, Hl, Hw, Hc, Hsplit.
  rewrite (adoptLoop_app r _ before 0 (res :: rest) scaler false Hbefore Hacc).
  simpl adoptLoop. rewrite (demote_panics _ Hnil), afterEffects_panicked.
  rewrite app_nil_r. reflexivity.
Qed.

(** * Further properties of [Reconcile] *)

Lemma reported_patchEffects o rs : reported (patchEffects o rs) = false.
Proof.
  unfold reported. induction rs as [|res rs IH]; simpl; [reflexivity | exact IH].
Qed.

Lemma In_patchEffects o rs res answered :
  In (DoPatch res answered) (patchEffects o rs) ->
  answered = None /\ exists x, In x rs /\ res = adopted o x.
Proof.
  unfold patchEffects. intros H. apply in_map_iff in H.
  destruct H as (x & E & Hx). inversion E; subst.
  split; [reflexivity | exists x; split; [exact Hx | reflexivity]].
Qed.

Lemma demoted_demoted (ref : OwnerReference) : demoted (demoted ref) = demoted ref.
Proof.
  unfold demoted at 1. rewrite isController_demoted. reflexivity.
Qed.

Lemma panic_trace r req tr :
  Reconcile r req = Panicked tr -> exists o before, tr = patchEffects o before.
Proof.
  unfold Reconcile. intros H.
  destruct (Get r req) as [scaler|e]; [|discriminate].
  destruct (LocateParentAppConfig r scaler) as [parent|e]; [|discriminate].
  destruct (FetchWorkload r scaler) as [workload|e]; [|discriminate].
  destruct (FetchWorkloadChildResources r workload) as [children|e];
    [|discriminate].
  destruct (adoptLoop _ _ _ _ _ _) as [sc' flag' tr'|out] eqn:El.
  - destruct (scaleByKEDA r _ _); discriminate.
  - subst out. apply adoptLoop_left_at in El.
    destruct El as (before & res & rest & _ & _ & _ & Hcase).
    destruct Hcase as [[_ E] | (err & c & sc' & _ & _ & _ & _ & E)];
      [|discriminate].
    inversion E; subst. eexists _, before. reflexivity.
Qed.

(** X1: [Reconcile] panics only at an owner reference without controller
    flag: when it panics, the trait, the workload and the child resources
    were fetched, some discovered resource carries such a reference, and
    the patches made are those of the resources discovered before it. *)
Theorem panic_needs_nil_controller r req tr :
  Reconcile r req = Panicked tr ->
  exists scaler workload children before res rest,
    Get r req = Ok scaler /\
    FetchWorkload r scaler = Ok workload /\
    FetchWorkloadChildResources r workload = Ok children /\
    children ++ [workload] = before ++ res :: rest /\
    Exists (fun ref => Controller ref = None) (GetOwnerReferences res) /\
    tr = patchEffects (traitOwnerReference scaler) before.
Proof.
  unfold Reconcile. intros H.
  destruct (Get r req) as [scaler|e] eqn:Hg; [|discriminate].
  destruct (LocateParentAppConfig r scaler) as [parent|e]; [|discriminate].
  destruct (FetchWorkload r scaler) as [workload|e] eqn:Hw; [|discriminate].
  destruct (FetchWorkloadChildResources r workload) as [children|e] eqn:Hc;
    [|discriminate].
  destruct (adoptLoop _ _ _ _ _ _) as [sc' flag' tr'|out] eqn:El.
  - destruct (scaleByKEDA r _ _); discriminate.
  - subst out. apply adoptLoop_left_at in El.
    destruct El as (before & res & rest & Hsplit & _ & _ & Hcase).
    destruct Hcase as [[Hnil E] | (err & c & sc' & _ & _ & _ & _ & E)];
      [|discriminate].
    inversion E; subst.
    exists scaler, workload, children, before, res, rest.
    repeat split; assumption.
Qed.

Lemma panic_needs_nil_controller_witness :
  exists scaler workload children before res rest,
    Get (Sample.cluster (Ok Sample.trait) Sample.containerized
           [Sample.deployment; Sample.configured] Sample.accepting None)
        Sample.req = Ok scaler /\
    FetchWorkload (Sample.cluster (Ok Sample.trait) Sample.containerized
           [Sample.deployment; Sample.configured] Sample.accepting None)
        scaler = Ok workload /\
    FetchWorkloadChildResources (Sample.cluster (Ok Sample.trait)
           Sample.containerized [Sample.deployment; Sample.configured]
           Sample.accepting None) workload = Ok children /\
    children ++ [workload] = before ++ res :: rest /\
    Exists (fun ref => Controller ref = None) (GetOwnerReferences res) /\
    [DoPatch (adopted (traitOwnerReference Sample.trait) Sample.deployment) None]
    = patchEffects (traitOwnerReference scaler) before.
Proof.
  apply (panic_needs_nil_controller
           (Sample.cluster (Ok Sample.trait) Sample.containerized
              [Sample.deployment; Sample.configured] Sample.accepting None)
           Sample.req).
  vm_compute. reflexivity.
Defined.

Lemma nil_controller_panics_everywhere_witness :
  Reconcile (Sample.cluster (Ok Sample.trait) Sample.containerized
               [Sample.deployment; Sample.configured] Sample.accepting None)
            Sample.req
  = Panicked (patchEffects (traitOwnerReference Sample.trait) [Sample.deployment]).
Proof.
  apply (nil_controller_panics_everywhere
           (Sample.cluster (Ok Sample.trait) Sample.containerized
              [Sample.deployment; Sample.configured] Sample.accepting None)
           Sample.req Sample.trait None Sample.containerized
           [Sample.deployment; Sample.configured]
           [Sample.deployment] Sample.configured [Sample.containerized]).
  - reflexivity.
  - reflexivity.
  - reflexivity.
  - reflexivity.
  - reflexivity.
  - repeat constructor; simpl; discriminate.
  - intros [|k] x Hk; simpl in Hk; [reflexivity | destruct k; discriminate].
  - constructor. reflexivity.
Defined.

(** X3: whatever the outcome, the resources patched are an initial part
    of the discovered list (child resources in discovery order, then the
    workload), each as the trait adopts it: no resource is skipped and none
    is patched out of order. *)
Theorem patches_follow_discovery_order r req scaler workload children :
  Get r req = Ok scaler ->
  FetchWorkload r scaler = Ok workload ->
  FetchWorkloadChildResources r workload = Ok children ->
  exists n,
    patchedResources (traceOf (Reconcile r req))
    = map (adopted (traitOwnerReference scaler))
        (firstn n (children ++ [workload])).
Proof.
  intros Hg Hw Hc. unfold Reconcile. rewrite Hg.
  destruct (LocateParentAppConfig r scaler) as [parent|e];
    [|exists 0; reflexivity].
  rewrite Hw, Hc.
  destruct (adoptLoop _ _ _ _ _ _) as [sc' flag' tr'|out] eqn:El.
  - apply adoptLoop_done in El. destruct El as (_ & _ & -> & _).
    exists (List.length (children ++ [workload])). rewrite firstn_all.
    destruct (scaleByKEDA r _ _); simpl;
      rewrite patchedResources_app, patchedResources_patchEffects;
      apply app_nil_r.
  - apply adoptLoop_left_at in El.
    destruct El as (before & res & rest & -> & _ & _ & Hcase).
    exists (List.length before).
    rewrite firstn_app, firstn_all, Nat.sub_diag. simpl firstn.
    rewrite app_nil_r.
    destruct Hcase as [[_ ->] | (err & c & sc' & _ & _ & _ & _ & ->)]; simpl.
    + apply patchedResources_patchEffects.
    + rewrite patchedResources_refused. simpl. apply app_nil_r.
Qed.

Lemma patches_follow_discovery_order_witness :
  exists n,
    patchedResources
      (traceOf (Reconcile
         (Sample.cluster (Ok Sample.trait) Sample.containerized
            [Sample.deployment; Sample.service; Sample.statefulSet]
            (Sample.refusingAt 2) None) Sample.req))
    = map (adopted (traitOwnerReference Sample.trait))
        (firstn n ([Sample.deployment; Sample.service; Sample.statefulSet]
                   ++ [Sample.containerized])).
Proof.
  apply (patches_follow_discovery_order
           (Sample.cluster (Ok Sample.trait) Sample.containerized
              [Sample.deployment; Sample.service; Sample.statefulSet]
              (Sample.refusingAt 2) None)
           Sample.req Sample.trait Sample.containerized
           [Sample.deployment; Sample.service; Sample.statefulSet]);
    reflexivity.
Defined.

(** X4: every [Patch] that [Reconcile] issues, accepted or refused, is for
    a discovered child resource or the workload, as the trait adopts it,
    and is issued only after the trait, its parent, the workload and the
    child resources were all fetched. *)
Theorem only_discovered_resources_are_patched r req res answered :
  In (DoPatch res answered) (traceOf (Reconcile r req)) ->
  exists scaler parent workload children x,
    Get r req = Ok scaler /\
    LocateParentAppConfig r scaler = Ok parent /\
    FetchWorkload r scaler = Ok workload /\
    FetchWorkloadChildResources r workload = Ok children /\
    In x (children ++ [workload]) /\
    res = adopted (traitOwnerReference scaler) x.
Proof.
  unfold Reconcile. intros H.
  destruct (Get r req) as [scaler|e] eqn:Hg; [|destruct H].
  destruct (LocateParentAppConfig r scaler) as [parent|e] eqn:Hl.
  2:{ simpl in H. destruct H as [H|[]]; discriminate. }
  destruct (FetchWorkload r scaler) as [workload|e] eqn:Hw.
  2:{ simpl in H. destruct H as [H|[H|[]]]; discriminate. }
  destruct (FetchWorkloadChildResources r workload) as [children|e] eqn:Hc.
  2:{ simpl in H. destruct H as [H|[H|[]]]; discriminate. }
  assert (Hx : exists x, In x (children ++ [workload]) /\
                         res = adopted (traitOwnerReference scaler) x);
    [|destruct Hx as (x & Hin & ->);
      exists scaler, parent, workload, children, x; repeat split; assumption].
  destruct (adoptLoop _ _ _ _ _ _) as [sc' flag' tr'|out] eqn:El.
  - apply adoptLoop_done in El. destruct El as (_ & _ & -> & _).
    assert (Hin : In (DoPatch res answered)
                    (patchEffects (traitOwnerReference scaler)
                       (children ++ [workload]))).
    { destruct (scaleByKEDA r _ _); simpl in H; apply in_app_or in H;
        (destruct H as [H|[H|[]]]; [exact H | discriminate]). }
    apply In_patchEffects in Hin. exact (proj2 Hin).
  - apply adoptLoop_left_at in El.
    destruct El as (before & y & rest & Hsplit & _ & _ & Hcase).
    rewrite Hsplit.
    destruct Hcase as [[_ ->] | (err & c & sc' & _ & _ & _ & _ & ->)];
      simpl in H.
    + apply In_patchEffects in H. destruct H as (_ & x & Hin & ->).
      exists x. split; [apply in_or_app; left; exact Hin | reflexivity].
    + apply in_app_or in H. destruct H as [H|[H|[H|[]]]].
      * apply In_patchEffects in H. destruct H as (_ & x & Hin & ->).
        exists x. split; [apply in_or_app; left; exact Hin | reflexivity].
      * inversion H; subst. exists y.
        split; [apply in_or_app; right; left; reflexivity | reflexivity].
      * discriminate.
Qed.

Lemma only_discovered_resources_are_patched_witness :
  exists scaler parent workload children x,
    Get (Sample.cluster (Ok Sample.trait) Sample.containerized
           [Sample.deployment] (Sample.refusingAt 1) None) Sample.req
    = Ok scaler /\
    LocateParentAppConfig (Sample.cluster (Ok Sample.trait) Sample.containerized
           [Sample.deployment] (Sample.refusingAt 1) None) scaler = Ok parent /\
    FetchWorkload (Sample.cluster (Ok Sample.trait) Sample.containerized
           [Sample.deployment] (Sample.refusingAt 1) None) scaler = Ok workload /\
    FetchWorkloadChildResources (Sample.cluster (Ok Sample.trait)
           Sample.containerized [Sample.deployment] (Sample.refusingAt 1) None)
        workload = Ok children /\
    In x (children ++ [workload]) /\
    adopted (traitOwnerReference Sample.trait) Sample.containerized
    = adopted (traitOwnerReference scaler) x.
Proof.
  apply (only_discovered_resources_are_patched
           (Sample.cluster (Ok Sample.trait) Sample.containerized
              [Sample.deployment] (Sample.refusingAt 1) None)
           Sample.req
           (adopted (traitOwnerReference Sample.trait) Sample.containerized)
           (Some (ErrOther "conflict"))).
  vm_compute. right. left. reflexivity.
Defined.

(** X5: [scaleByKEDA] is called at most once in a reconcile, with the
    namespace of the request, and when it is called it is the last call,
    after the accepted patches of every discovered child resource and of
    the workload, in discovery order; the trait it is handed is the fetched
    one up to its target workload. *)
Theorem scaling_follows_full_adoption r req :
  scaledTraits (traceOf (Reconcile r req)) = [] \/
  exists scaler workload children sc answered,
    Get r req = Ok scaler /\
    FetchWorkload r scaler = Ok workload /\
    FetchWorkloadChildResources r workload = Ok children /\
    traceOf (Reconcile r req)
    = map (fun x => DoPatch (adopted (traitOwnerReference scaler) x) None)
        (children ++ [workload])
      ++ [DoScaleByKEDA sc (Namespace req) answered] /\
    answered = scaleByKEDA r sc (Namespace req) /\
    scaledTraits (traceOf (Reconcile r req)) = [(sc, Namespace req)] /\
    patchedResources (traceOf (Reconcile r req))
    = map (adopted (traitOwnerReference scaler)) (children ++ [workload]) /\
    setTargetWorkload sc (scTargetWorkload scaler) = scaler.
Proof.
  destruct (Reconcile r req) as [res err tr|tr] eqn:H.
  - apply Reconcile_returned in H. simpl.
    destruct H as [(e & _ & _ & _ & ->) | (scaler & Hg & H)];
      [left; reflexivity|].
    destruct H as [(e & c & _ & _ & _ & ->) | (parent & _ & H)];
      [left; reflexivity|].
    destruct H as [(e & c & _ & _ & _ & ->) | (workload & Hw & H)];
      [left; reflexivity|].
    destruct H as [(e & c & _ & _ & _ & ->) | (children & Hc & H)];
      [left; reflexivity|].
    destruct H as [(before & x & rest & e & sc & c
                    & _ & _ & _ & _ & _ & _ & ->) | (He & _ & ->)].
    + left. rewrite scaledTraits_app, scaledTraits_patchEffects. reflexivity.
    + right.
      exists scaler, workload, children,
        (traitToScale scaler children workload), err.
      repeat split; try assumption.
      * rewrite scaledTraits_app, scaledTraits_patchEffects. reflexivity.
      * rewrite patchedResources_app, patchedResources_patchEffects.
        destruct err; simpl; apply app_nil_r.
      * apply traitToScale_identity.
  - left. apply panic_trace in H. destruct H as (o & before & ->).
    apply scaledTraits_patchEffects.
Qed.

(** X6: when every resource is adopted and [scaleByKEDA] then fails,
    [Reconcile] returns that error with [ReconcileWaitResult]; the patches
    of the owner references stay as made and [Reconcile] patches no
    condition and records no event for the failure. *)
Theorem failed_scaling_keeps_adoption r req scaler parent workload children err :
  Get r req = Ok scaler ->
  LocateParentAppConfig r scaler = Ok parent ->
  FetchWorkload r scaler = Ok workload ->
  FetchWorkloadChildResources r workload = Ok children ->
  Forall controllersSet (children ++ [workload]) ->
  patchesAccepted r (traitOwnerReference scaler) 0 (children ++ [workload]) ->
  (forall sc, scaleByKEDA r sc (Namespace req) = Some err) ->
  exists tr,
    Reconcile r req = Returned ReconcileWaitResult (Some err) tr /\
    patchedResources tr
    = map (adopted (traitOwnerReference scaler)) (children ++ [workload]) /\
    reported tr = false.
Proof.
  intros Hg Hl Hw Hc Hset Hacc Hk. unfold Reconcile.
  rewrite Hg, Hl, Hw, Hc, (adoptLoop_accepted _ _ _ _ _ _ Hset Hacc), Hk.
  eexists. split; [reflexivity|]. split.
  - rewrite patchedResources_app, patchedResources_patchEffects. simpl.
    apply app_nil_r.
  - rewrite reported_app, reported_patchEffects. reflexivity.
Qed.

Lemma failed_scaling_keeps_adoption_witness :
  exists tr,
    Reconcile (Sample.cluster (Ok Sample.trait) Sample.containerized
                 [Sample.deployment] Sample.accepting
                 (Some (ErrOther "keda unavailable"))) Sample.req
    = Returned ReconcileWaitResult (Some (ErrOther "keda unavailable")) tr /\
    patchedResources tr
    = map (adopted (traitOwnerReference Sample.trait))
        ([Sample.deployment] ++ [Sample.containerized]) /\
    reported tr = false.
Proof.
  apply (failed_scaling_keeps_adoption
           (Sample.cluster (Ok Sample.trait) Sample.containerized
              [Sample.deployment] Sample.accepting
              (Some (ErrOther "keda unavailable")))
           Sample.req Sample.trait None Sample.containerized [Sample.deployment]).
  - reflexivity.
  - reflexivity.
  - reflexivity.
  - reflexivity.
  - repeat constructor; simpl; discriminate.
  - intros k x Hk. reflexivity.
  - intros sc. reflexivity.
Defined.

(** X7: when the workload has at least one child resource and neither a
    child resource nor the workload is a Deployment or a StatefulSet, a
    successful reconcile hands [scaleByKEDA] the trait exactly as it was
    fetched, its target workload untouched. *)
Theorem unscalable_resources_keep_fetched_target r req tr scaler workload children :
  Reconcile r req = Returned emptyResult None tr ->
  Get r req = Ok scaler ->
  FetchWorkload r scaler = Ok workload ->
  FetchWorkloadChildResources r workload = Ok children ->
  children <> [] ->
  Forall (fun x => GetKind x <> "Deployment" /\ GetKind x <> "StatefulSet")
    (children ++ [workload]) ->
  scaledTraits tr = [(scaler, Namespace req)].
Proof.
  intros H Hg Hw Hc Hne Hall. apply Reconcile_succeeded in H.
  destruct H as (scaler' & parent & workload' & children'
                 & Hg' & _ & Hw' & Hc' & _ & _ & _ & ->).
  rewrite Hg in Hg'. inversion Hg'; subst scaler'.
  rewrite Hw in Hw'. inversion Hw'; subst workload'.
  rewrite Hc in Hc'. inversion Hc'; subst children'.
  rewrite scaledTraits_app, scaledTraits_patchEffects. simpl.
  unfold traitToScale. rewrite resolveOver_none.
  - simpl. rewrite length_app. simpl.
    destruct children as [|c cs]; [congruence|]. simpl.
    rewrite Nat.add_1_r. reflexivity.
  - eapply Forall_impl; [|exact Hall]. intros x Hx.
    apply isScalableKind_false, Hx.
Qed.

Lemma unscalable_resources_keep_fetched_target_witness :
  scaledTraits
    (traceOf (Reconcile
       (Sample.cluster (Ok Sample.trait) Sample.containerized
          [Sample.service] Sample.accepting None) Sample.req))
  = [(Sample.trait, "default")].
Proof.
  apply (unscalable_resources_keep_fetched_target
           (Sample.cluster (Ok Sample.trait) Sample.containerized
              [Sample.service] Sample.accepting None)
           Sample.req _ Sample.trait Sample.containerized [Sample.service]).
  - vm_compute. reflexivity.
  - reflexivity.
  - reflexivity.
  - reflexivity.
  - discriminate.
  - repeat constructor; simpl; discriminate.
Defined.

Lemma target_is_lone_workload_witness :
  exists sc,
    scaledTraits
      (traceOf (Reconcile
         (Sample.cluster (Ok Sample.trait) Sample.containerized []
            Sample.accepting None) Sample.req))
    = [(sc, "default")] /\
    scTargetWorkload sc = targetOf Sample.containerized.
Proof.
  apply (target_is_lone_workload
           (Sample.cluster (Ok Sample.trait) Sample.containerized []
              Sample.accepting None)
           Sample.req _ Sample.trait Sample.containerized).
  - vm_compute. reflexivity.
  - reflexivity.
  - reflexivity.
  - reflexivity.
Defined.

(** X9: [Reconcile] returns one of two results: the empty result, with a
    nil error and after [scaleByKEDA] was called, or a result that asks for
    a requeue after 30 seconds. *)
Theorem reconcile_result_is_empty_or_requeue r req res err tr :
  Reconcile r req = Returned res err tr ->
  (res = emptyResult /\ err = None /\
   exists sc, scaledTraits tr = [(sc, Namespace req)]) \/
  (Requeue res = false /\ RequeueAfter res = (30 * 1000000000)%Z).
Proof.
  unfold Reconcile. intros H.
  destruct (Get r req) as [scaler|e];
    [|inversion H; right; split; reflexivity].
  destruct (LocateParentAppConfig r scaler) as [parent|e];
    [|inversion H; right; split; reflexivity].
  destruct (FetchWorkload r scaler) as [workload|e];
    [|inversion H; right; split; reflexivity].
  destruct (FetchWorkloadChildResources r workload) as [children|e];
    [|inversion H; right; split; reflexivity].
  destruct (adoptLoop _ _ _ _ _ _) as [sc' flag' tr'|out] eqn:El.
  - apply adoptLoop_done in El. destruct El as (_ & _ & -> & _).
    destruct (scaleByKEDA r _ _); inversion H; subst.
    + right. split; reflexivity.
    + left. repeat split. eexists.
      rewrite scaledTraits_app, scaledTraits_patchEffects. reflexivity.
  - subst out. apply adoptLoop_left_at in El.
    destruct El as (before & y & rest & _ & _ & _ & Hcase).
    destruct Hcase as [[_ E] | (e & c & sc' & _ & _ & _ & _ & E)];
      [discriminate|].
    inversion E; subst. right. split; reflexivity.
Qed.

Lemma reconcile_result_is_empty_or_requeue_witness :
  (utilReconcileWaitResult = emptyResult /\ @None error = None /\
   exists sc,
     scaledTraits
       [DoPatch (adopted (traitOwnerReference Sample.trait) Sample.loneDeployment)
          (Some (ErrOther "conflict"));
        DoPatchCondition (setTargetWorkload Sample.trait noTargetWorkload)
          (ReconcileError
             (Wrap (ErrOther "conflict")
                "Failed to set ownerReference for child resource")) None]
     = [(sc, Namespace Sample.req)]) \/
  (Requeue utilReconcileWaitResult = false /\
   RequeueAfter utilReconcileWaitResult = (30 * 1000000000)%Z).
Proof.
  apply (reconcile_result_is_empty_or_requeue
           (Sample.cluster (Ok Sample.trait) Sample.loneDeployment []
              (Sample.refusingAt 0) None)
           Sample.req).
  vm_compute. reflexivity.
Defined.

(** X10: when [util.PatchCondition] succeeds, [Reconcile] returns in one
    of three ways: the trait is not fetched and the error is that of [Get]
    (nil for not-found); [scaleByKEDA] was called, as the last call, and
    the error is its answer; or the error is nil and the result the
    requeue, after a parent, a workload or child resources that could not
    be fetched or a refused patch.  Each of these four failures, when it is
    the one [Reconcile] meets, ends in the nil error and the requeue
    result. *)
Theorem only_fetch_and_scaling_errors_are_returned r req res err tr :
  (forall sc c, PatchCondition r sc c = None) ->
  Reconcile r req = Returned res err tr ->
  ((exists e, Get r req = Err e /\ err = IgnoreNotFound e /\ tr = []) \/
   (exists sc tr0,
      tr = tr0 ++ [DoScaleByKEDA sc (Namespace req) err] /\
      err = scaleByKEDA r sc (Namespace req)) \/
   (err = None /\ res = utilReconcileWaitResult /\ scaledTraits tr = [])) /\
  (forall scaler,
     Get r req = Ok scaler ->
     (exists e, LocateParentAppConfig r scaler = Err e) \/
     (exists e, FetchWorkload r scaler = Err e) \/
     (exists workload e,
        FetchWorkload r scaler = Ok workload /\
        FetchWorkloadChildResources r workload = Err e) \/
     (exists x e, In (DoPatch x (Some e)) tr) ->
     err = None /\ res = utilReconcileWaitResult /\ scaledTraits tr = []).
Proof.
  intros Hpc H. apply Reconcile_returned in H.
  destruct H as [(e & Hg & _ & He & ->) | (scaler & Hg & H)].
  { split.
    - left. exists e. repeat split; assumption.
    - intros scaler Hg'. congruence. }
  assert (Hnil :
            err = None -> res = utilReconcileWaitResult ->
            scaledTraits tr = [] ->
            ((exists e, Get r req = Err e /\ err = IgnoreNotFound e /\ tr = []) \/
             (exists sc tr0,
                tr = tr0 ++ [DoScaleByKEDA sc (Namespace req) err] /\
                err = scaleByKEDA r sc (Namespace req)) \/
             (err = None /\ res = utilReconcileWaitResult /\ scaledTraits tr = [])) /\
            (forall scaler,
               Get r req = Ok scaler ->
               (exists e, LocateParentAppConfig r scaler = Err e) \/
               (exists e, FetchWorkload r scaler = Err e) \/
               (exists workload e,
                  FetchWorkload r scaler = Ok workload /\
                  FetchWorkloadChildResources r workload = Err e) \/
               (exists x e, In (DoPatch x (Some e)) tr) ->
               err = None /\ res = utilReconcileWaitResult /\ scaledTraits tr = [])).
  { intros He Hres Hs.
    split; [right; right|intros _ _ _]; repeat split; assumption. }
  destruct H as [(e & c & _ & Hres & He & Htr) | (parent & Hl & H)].
  { apply Hnil; [rewrite He; apply Hpc | exact Hres | rewrite Htr; reflexivity]. }
  destruct H as [(e & c & _ & Hres & He & Htr) | (workload & Hw & H)].
  { apply Hnil; [rewrite He; apply Hpc | exact Hres | rewrite Htr; reflexivity]. }
  destruct H as [(e & c & _ & Hres & He & Htr) | (children & Hc & H)].
  { apply Hnil; [rewrite He; apply Hpc | exact Hres | rewrite Htr; reflexivity]. }
  clear Hnil.
  destruct H as [(before & x & rest & e & sc & c
                  & _ & _ & _ & _ & Hres & He & ->) | (He & _ & ->)].
  { assert (Herr : err = None) by (rewrite He; apply Hpc).
    assert (Hs : scaledTraits
                   (patchEffects (traitOwnerReference scaler) before
                    ++ [DoPatch (adopted (traitOwnerReference scaler) x) (Some e);
                        DoPatchCondition sc c err]) = [])
      by (rewrite scaledTraits_app, scaledTraits_patchEffects; reflexivity).
    split; [right; right|intros _ _ _]; repeat split; assumption. }
  split.
  - right. left. eexists _, _. split; [reflexivity | exact He].
  - intros scaler' Hg'. rewrite Hg in Hg'. inversion Hg'; subst scaler'.
    intros [(e & Hl') | [(e & Hw') | [(w & e & Hw' & Hc') | (x & e & Hin)]]].
    + congruence.
    + congruence.
    + rewrite Hw in Hw'. inversion Hw'; subst w. congruence.
    + exfalso. apply in_app_or in Hin. destruct Hin as [Hin|[Hin|[]]].
      * apply In_patchEffects in Hin. destruct Hin as [Hin _]. discriminate.
      * discriminate.
Qed.

Lemma only_fetch_and_scaling_errors_are_returned_witness :
  let r := Sample.cluster (Ok Sample.trait) Sample.containerized
             [Sample.deployment] (Sample.refusingAt 0) None in
  let res := utilReconcileWaitResult in
  let err := @None error in
  let tr := traceOf (Reconcile r Sample.req) in
  ((exists e, Get r Sample.req = Err e /\ err = IgnoreNotFound e /\ tr = []) \/
   (exists sc tr0,
      tr = tr0 ++ [DoScaleByKEDA sc (Namespace Sample.req) err] /\
      err = scaleByKEDA r sc (Namespace Sample.req)) \/
   (err = None /\ res = utilReconcileWaitResult /\ scaledTraits tr = [])) /\
  (forall scaler,
     Get r Sample.req = Ok scaler ->
     (exists e, LocateParentAppConfig r scaler = Err e) \/
     (exists e, FetchWorkload r scaler = Err e) \/
     (exists workload e,
        FetchWorkload r scaler = Ok workload /\
        FetchWorkloadChildResources r workload = Err e) \/
     (exists x e, In (DoPatch x (Some e)) tr) ->
     err = None /\ res = utilReconcileWaitResult /\ scaledTraits tr = []).
Proof.
  intros r res err tr.
  apply (only_fetch_and_scaling_errors_are_returned r Sample.req res err tr).
  - intros sc c. reflexivity.
  - vm_compute. reflexivity.
Defined.

(** X11: the demotion loop is idempotent: the list it leaves has the
    length of the one it was given, holds no controller, and is left as it
    is when the loop runs over it again. *)
Theorem demote_is_idempotent refs refs' :
  demote refs = Some refs' ->
  List.length refs' = List.length refs /\
  filter isController refs' = [] /\
  demote refs' = Some refs'.
Proof.
  intros H. apply demote_inv in H. destruct H as [Hall ->].
  split; [apply length_map|]. split; [apply filter_isController_demoted|].
  rewrite demote_total.
  - rewrite map_map. f_equal. apply map_ext. intros ref. apply demoted_demoted.
  - apply Forall_forall. intros ref Hin. apply in_map_iff in Hin.
    destruct Hin as (old & <- & Hold). rewrite Forall_forall in Hall.
    specialize (Hall old Hold). unfold demoted, isController.
    destruct (Controller old) as [[|]|] eqn:E; simpl; unfold BoolPtr; congruence.
Qed.

Lemma demote_is_idempotent_witness :
  List.length [setController Sample.appConfigRef (Some false)]
  = List.length [Sample.appConfigRef] /\
  filter isController [setController Sample.appConfigRef (Some false)] = [] /\
  demote [setController Sample.appConfigRef (Some false)]
  = Some [setController Sample.appConfigRef (Some false)].
Proof.
  apply (demote_is_idempotent [Sample.appConfigRef]). reflexivity.
Defined.

(** * Setting the controller up *)

Module BootstrapFacts.
Import Bootstrap.

(** X12: with an empty home directory the [kubeConfig] flag is never
    defined and its pointer stays nil: [Setup] does not return; it ends in
    [flag.Parse] exiting the process or, when [flag.Parse] returns, in the
    nil-pointer dereference of [*kubeConfig], whatever the command line,
    the manager, the flags defined before and the cluster. *)
Theorem empty_home_never_sets_up (p : Process) (mgr : Manager) (flags : list string) :
  HomeDir p = "" ->
  Setup p mgr flags = match Parse p None with
                      | ParseExits => Exited
                      | ParseReturns _ => NilPointer
                      end /\
  forall a, Setup p mgr flags <> Returns a.
Proof.
  intros Hhome. unfold Setup, SetupWithManager, buildConfig.
  rewrite Hhome. simpl.
  destruct (Parse p None); split; try reflexivity; intros a; discriminate.
Qed.

Lemma empty_home_never_sets_up_witness :
  Setup (mkProcess "" (String.concat "/") (fun _ => ParseReturns None)
           (fun _ _ => Ok (mkConfig "https://127.0.0.1:6443")) None)
        (mkManager "client" "scheme") []
  = NilPointer /\
  forall a,
    Setup (mkProcess "" (String.concat "/") (fun _ => ParseReturns None)
             (fun _ _ => Ok (mkConfig "https://127.0.0.1:6443")) None)
          (mkManager "client" "scheme") []
    <> Returns a.
Proof.
  apply (empty_home_never_sets_up
           (mkProcess "" (String.concat "/") (fun _ => ParseReturns None)
              (fun _ _ => Ok (mkConfig "https://127.0.0.1:6443")) None)
           (mkManager "client" "scheme") []).
  reflexivity.
Defined.

(** X13: when [Setup] returns, the home directory was not empty, the
    [kubeConfig] flag was not defined before and is now, and the reconciler
    holds the client and the scheme of the manager and the logger named
    Autoscaler.  The controller is handed to the manager only once the
    configuration was built, with the configuration, the context and the
    recorder named Autoscaler in place and the error that of [Complete];
    when the configuration cannot be built, [Setup] returns the error of
    building it, hands nothing to the manager and leaves the configuration,
    the context and the recorder unset. *)
Theorem setup_registers_only_with_config
    (p : Process) (mgr : Manager) (flags : list string) err r registered flags' :
  Setup p mgr flags = Returns (err, r, registered, flags') ->
  HomeDir p <> "" /\
  ~ In "kubeConfig" flags /\ flags' = "kubeConfig" :: flags /\
  Client r = Some (GetClient mgr) /\ Log r = Some "Autoscaler" /\
  Scheme r = Some (GetScheme mgr) /\
  ((registered = true /\
    err = Complete p /\
    (exists given c,
       Parse p (Some (Join p [HomeDir p; ".kube"; "config"])) = ParseReturns given /\
       BuildConfigFromFlags p ""
         (match given with
          | Some v => v
          | None => Join p [HomeDir p; ".kube"; "config"]
          end) = Ok c /\
       config r = Some c) /\
    ctxSet r = true /\
    record r = Some (mkRecorder "Autoscaler" [("controller", "Autoscaler")])) \/
   (registered = false /\
    (exists given e,
       Parse p (Some (Join p [HomeDir p; ".kube"; "config"])) = ParseReturns given /\
       BuildConfigFromFlags p ""
         (match given with
          | Some v => v
          | None => Join p [HomeDir p; ".kube"; "config"]
          end) = Err e /\
       err = Some e) /\
    config r = None /\ ctxSet r = false /\ record r = None)).
Proof.
  unfold Setup, SetupWithManager, buildConfig, flagString. intros H.
  destruct (HomeDir p =? "") eqn:Eh; cbn [negb] in H.
  - destruct (Parse p None); discriminate.
  - apply String.eqb_neq in Eh. split; [exact Eh|].
    destruct (existsb (String.eqb "kubeConfig") flags) eqn:Ef; [discriminate|].
    assert (Hnot : ~ In "kubeConfig" flags).
    { intros Hin. assert (Ht : existsb (String.eqb "kubeConfig") flags = true).
      { apply existsb_exists. exists "kubeConfig".
        split; [exact Hin | apply String.eqb_refl]. }
      congruence. }
    split; [exact Hnot|].
    destruct (Parse p _) as [|given] eqn:Ep; [discriminate|].
    destruct (BuildConfigFromFlags p "" _) as [c|e] eqn:Eb;
      inversion H; subst; clear H; repeat split.
    + left. repeat split. exists given, c. repeat split; assumption.
    + right. repeat split. exists given, e. repeat split; assumption.
Qed.

Lemma setup_registers_only_with_config_witness :
  let p := mkProcess "/root" (String.concat "/") (fun _ => ParseReturns None)
             (fun _ path => if path =? "/root/.kube/config"
                            then Ok (mkConfig "https://127.0.0.1:6443")
                            else Err (ErrOther "no such file"))
             None in
  let mgr := mkManager "client" "scheme" in
  let r := mkFields (Some "client") (Some "Autoscaler") (Some "scheme")
             (Some (mkRecorder "Autoscaler" [("controller", "Autoscaler")]))
             (Some (mkConfig "https://127.0.0.1:6443")) true in
  HomeDir p <> "" /\
  ~ In "kubeConfig" ["v"] /\ ["kubeConfig"; "v"] = "kubeConfig" :: ["v"] /\
  Client r = Some (GetClient mgr) /\ Log r = Some "Autoscaler" /\
  Scheme r = Some (GetScheme mgr) /\
  ((true = true /\
    @None error = Complete p /\
    (exists given c,
       Parse p (Some (Join p [HomeDir p; ".kube"; "config"])) = ParseReturns given /\
       BuildConfigFromFlags p ""
         (match given with
          | Some v => v
          | None => Join p [HomeDir p; ".kube"; "config"]
          end) = Ok c /\
       config r = Some c) /\
    ctxSet r = true /\
    record r = Some (mkRecorder "Autoscaler" [("controller", "Autoscaler")])) \/
   (true = false /\
    (exists given e,
       Parse p (Some (Join p [HomeDir p; ".kube"; "config"])) = ParseReturns given /\
       BuildConfigFromFlags p ""
         (match given with
          | Some v => v
          | None => Join p [HomeDir p; ".kube"; "config"]
          end) = Err e /\
       @None error = Some e) /\
    config r = None /\ ctxSet r = false /\ record r = None)).
Proof.
  intros p mgr r.
  apply (setup_registers_only_with_config p mgr ["v"] None r true
           ["kubeConfig"; "v"]).
  vm_compute. reflexivity.
Defined.

(** X16: [Setup] can run once in a process: after a [Setup] that returned,
    with or without error, the [kubeConfig] flag is defined, and a second
    [Setup] in the same process panics in [flag.String] over the flag
    defined before, whatever manager it is given. *)
Theorem second_setup_panics
    (p : Process) (mgr mgr' : Manager) (flags : list string)
    err r registered flags' :
  Setup p mgr flags = Returns (err, r, registered, flags') ->
  Setup p mgr' flags' = FlagRedefined "kubeConfig".
Proof.
  unfold Setup, SetupWithManager, buildConfig, flagString. intros H.
  destruct (HomeDir p =? "") eqn:Eh; cbn [negb] in H.
  - destruct (Parse p None); discriminate.
  - destruct (existsb (String.eqb "kubeConfig") flags); [discriminate|].
    destruct (Parse p _) as [|given]; [discriminate|].
    destruct (BuildConfigFromFlags p "" _) as [c|e];
      inversion H; subst; reflexivity.
Qed.

Lemma second_setup_panics_witness :
  Setup (mkProcess "/root" (String.concat "/") (fun _ => ParseReturns None)
           (fun _ _ => Ok (mkConfig "https://127.0.0.1:6443")) None)
        (mkManager "client" "scheme") ["kubeConfig"]
  = FlagRedefined "kubeConfig".
Proof.
  apply (second_setup_panics
           (mkProcess "/root" (String.concat "/") (fun _ => ParseReturns None)
              (fun _ _ => Ok (mkConfig "https://127.0.0.1:6443")) None)
           (mkManager "client" "scheme") (mkManager "client" "scheme") []
           None
           (mkFields (Some "client") (Some "Autoscaler") (Some "scheme")
              (Some (mkRecorder "Autoscaler" [("controller", "Autoscaler")]))
              (Some (mkConfig "https://127.0.0.1:6443")) true)
           true ["kubeConfig"]).
  vm_compute. reflexivity.
Defined.

End BootstrapFacts.

(** * The end-to-end contexts *)

Module E2EFacts.
Import E2E.

Lemma prefix_trans (a : string) : forall b c,
  prefix a b = true -> prefix b c = true -> prefix a c = true.
Proof.
  induction a as [|x a IH]; intros b c Hab Hbc; [destruct c; reflexivity|].
  destruct b as [|y b]; [discriminate|].
  destruct c as [|z c]; [discriminate|].
  simpl in *.
  destruct (ascii_dec x y) as [->|]; [|discriminate].
  destruct (ascii_dec y z) as [->|]; [|discriminate].
  exact (IH b c Hab Hbc).
Qed.

Lemma prefix_split (a : string) : forall s,
  prefix a s = true <-> exists rest, s = (a ++ rest)%string.
Proof.
  induction a as [|x a IH]; intros s.
  - split; [intros _; exists s; reflexivity | intros _; destruct s; reflexivity].
  - destruct s as [|y s]; simpl.
    + split; [discriminate | intros [rest H]; discriminate].
    + destruct (ascii_dec x y) as [->|Hne].
      * rewrite IH. split; intros [rest H]; exists rest; congruence.
      * split; [discriminate | intros [rest H]; congruence].
Qed.

(** [Contains] is the substring relation. *)
Lemma Contains_split (s substr : string) :
  Contains s substr = true <->
  exists before rest, s = (before ++ substr ++ rest)%string.
Proof.
  induction s as [|x s IH]; cbn [Contains].
  - rewrite orb_false_r, prefix_split. split.
    + intros [rest H]. exists "", rest. exact H.
    + intros (before & rest & H). destruct before; [|discriminate].
      exists rest. exact H.
  - rewrite orb_true_iff, prefix_split, IH. split.
    + intros [[rest H] | (before & rest & H)].
      * exists "", rest. exact H.
      * exists (String x before), rest. simpl. congruence.
    + intros (before & rest & H). destruct before as [|y before].
      * left. exists rest. exact H.
      * right. exists before, rest. simpl in H. congruence.
Qed.

Lemma Contains_prefix (small big : string) :
  prefix small big = true ->
  forall s, Contains s big = true -> Contains s small = true.
Proof.
  intros Hp s. induction s as [|x s IH]; cbn [Contains];
    rewrite ?orb_false_r, ?orb_true_iff.
  - intros H. exact (prefix_trans _ _ _ Hp H).
  - intros [H|H]; [left; exact (prefix_trans _ _ _ Hp H) | right; exact (IH H)].
Qed.

Lemma Contains_empty (s : string) : Contains s "" = true.
Proof. destruct s; reflexivity. Qed.

(** X14: the test of [RefreshContext] passes exactly when
    [vela system update] ends without error and its output contains the
    syncing line, [successfully] and [remove]; the expectation of [sync]
    never decides, as the syncing line holds it. *)
Theorem RefreshContext_passes (Exec : Executor) :
  RefreshContext Exec = true <->
  snd (Exec "vela system update") = None /\
  Contains (fst (Exec "vela system update"))
    "syncing workload definitions from cluster..." = true /\
  Contains (fst (Exec "vela system update")) "successfully" = true /\
  Contains (fst (Exec "vela system update")) "remove" = true.
Proof.
  unfold RefreshContext.
  destruct (Exec "vela system update") as [output err]. simpl.
  rewrite !andb_true_iff. split.
  - intros ((((He & Hs) & _) & Hok) & Hr). repeat split; try assumption.
    destruct err; [discriminate | reflexivity].
  - intros (He & Hs & Hok & Hr). subst err. repeat split; try assumption.
    apply (Contains_prefix "sync"
             "syncing workload definitions from cluster..." eq_refl).
    exact Hs.
Qed.

(** X15: the test of [ComponentListContext] passes exactly when
    [vela comp ls] ends without error and its output contains [NAME], the
    application name and the trait alias; for the empty alias, which the
    test does not look for, every output contains it. *)
Theorem ComponentListContext_passes (Exec : Executor)
    (applicationName traitAlias : string) :
  ComponentListContext Exec applicationName traitAlias = true <->
  snd (Exec "vela comp ls") = None /\
  Contains (fst (Exec "vela comp ls")) "NAME" = true /\
  Contains (fst (Exec "vela comp ls")) applicationName = true /\
  Contains (fst (Exec "vela comp ls")) traitAlias = true.
Proof.
  unfold ComponentListContext.
  destruct (Exec "vela comp ls") as [output err]. simpl.
  rewrite !andb_true_iff.
  assert (Halias : (if negb (traitAlias =? "") then Contains output traitAlias
                    else true) = Contains output traitAlias).
  { destruct (traitAlias =? "") eqn:E; simpl; [|reflexivity].
    apply String.eqb_eq in E. subst. symmetry. apply Contains_empty. }
  rewrite Halias. split.
  - intros (((He & Hn) & Ha) & Ht). repeat split; try assumption.
    destruct err; [discriminate | reflexivity].
  - intros (He & Hn & Ha & Ht). subst err. repeat split; assumption.
Qed.

End E2EFacts.
